(** * Weather Dashboard API: the gateway of [backend/main.py]

    A shallow embedding of the FastAPI application: the three static
    endpoints and the handler [get_weather], which forwards a city name to
    the upstream weather provider and reshapes the answer.

    Python values are an inductive type, exceptions are values of [exn],
    and the handler runs in a state-and-exception monad over the process
    state: the environment, the two Prometheus metrics, the wall clock and
    the log of outbound calls.  A raised exception keeps the state changes
    made before it, as in Python.

    What the libraries do is a parameter of the model: how an exception
    renders as text, how pydantic validates a field, what [str.title()]
    makes of a text, and what the HTTP client answers. *)

From Stdlib Require Import ZArith NArith String Ascii List Bool Lia.
From Stdlib Require Import Floats.PrimFloat Floats.FloatOps Floats.SpecFloat.
From Stdlib Require Import Numbers.DecimalString.
Import ListNotations.

Set Warnings "-register-all".

Local Open Scope string_scope.
Local Open Scope list_scope.

(** ** Python values and exceptions *)

(** What [json.loads] produces: [None], [bool], [int], [float], [str],
    [list] and [dict] with string keys.  A [dict] is the list of its items;
    [dict_get] returns the first binding of a key. *)
Inductive pyval : Type :=
| PNone
| PBool (b : bool)
| PInt (n : Z)
| PFloat (x : float)
| PStr (s : string)
| PList (items : list pyval)
| PDict (items : list (string * pyval)).

(** The two kinds of subscript the handler uses: [obj["key"]] and [obj[0]]. *)
Inductive index : Type :=
| IKey (k : string)
| IInt (i : Z).

(** The subclasses of [httpx.RequestError], by the class directly below
    it or below [httpx.TransportError]: [ConnectError] is what a refused
    connection and a failed name lookup raise, [TimeoutException] covers
    the four timeouts, [NetworkError] the other read, write and close
    errors; [UnsupportedProtocol] is raised for a URL without [http://] or
    [https://], before anything is sent. *)
Inductive request_error : Type :=
| ConnectError
| TimeoutException
| NetworkError
| ProtocolError
| ProxyError
| UnsupportedProtocol
| DecodingError
| TooManyRedirects.

(** A failure of the exchange with the provider over the network, as
    opposed to a request httpx refuses to send, a body it cannot decode or
    a chain of redirects it gives up on. *)
Definition is_transport_level (k : request_error) : bool :=
  match k with
  | ConnectError | TimeoutException | NetworkError | ProtocolError
  | ProxyError => true
  | UnsupportedProtocol | DecodingError | TooManyRedirects => false
  end.

(** The exception classes that can occur in the handler.  [RequestError]
    stands for [httpx.RequestError] and its subclasses; every class here
    derives from [Exception]. *)
Inductive exn : Type :=
| HTTPException (status_code : Z) (detail : string)
| RequestError (kind : request_error) (message : string)
| KeyError (key : index)
| IndexError (obj : pyval)
| TypeError (obj : pyval) (idx : index)
| AttributeError (obj : pyval) (name : string)
| JSONDecodeError
| ValidationError (fields : list (string * pyval))
| ValueError (message : string).

(** [isinstance(e, httpx.RequestError)] *)
Definition is_RequestError (e : exn) : bool :=
  match e with
  | RequestError _ _ => true
  | _ => false
  end.

Definition result (A : Type) : Type := (exn + A)%type.

Definition rbind {A B : Type} (r : result A) (k : A -> result B) : result B :=
  match r with
  | inl e => inl e
  | inr a => k a
  end.

Declare Scope result_scope.
Delimit Scope result_scope with result.
Notation "'let?' x ':=' r 'in' k" := (rbind r (fun x => k))
  (at level 10, x name, r at level 100, k at level 200) : result_scope.

(** ** [str.title()] on ASCII text

    CPython walks the string once: a character that follows a cased
    character is lower-cased, any other character is title-cased. *)
Module Str.

Definition is_upper (c : ascii) : bool :=
  let n := nat_of_ascii c in (65 <=? n)%nat && (n <=? 90)%nat.

Definition is_lower (c : ascii) : bool :=
  let n := nat_of_ascii c in (97 <=? n)%nat && (n <=? 122)%nat.

Definition is_cased (c : ascii) : bool := is_upper c || is_lower c.

Definition to_upper (c : ascii) : ascii :=
  if is_lower c then ascii_of_nat (nat_of_ascii c - 32) else c.

Definition to_lower (c : ascii) : ascii :=
  if is_upper c then ascii_of_nat (nat_of_ascii c + 32) else c.

Fixpoint title_from (previous_is_cased : bool) (s : string) : string :=
  match s with
  | EmptyString => EmptyString
  | String c rest =>
      String (if previous_is_cased then to_lower c else to_upper c)
             (title_from (is_cased c) rest)
  end.

Definition title (s : string) : string := title_from false s.

(** The text has ASCII characters only. *)
Fixpoint is_ascii (s : string) : bool :=
  match s with
  | EmptyString => true
  | String c rest => (nat_of_ascii c <? 128)%nat && is_ascii rest
  end.

(** [str.lower()] on ASCII text *)
Fixpoint lower (s : string) : string :=
  match s with
  | EmptyString => EmptyString
  | String c rest => String (to_lower c) (lower rest)
  end.

(** Title case as a property of a text: no upper-case letter follows a
    letter, and no lower-case letter stands at the start or follows a
    character that is not a letter. *)
Fixpoint in_title_case_from (previous_is_cased : bool) (s : string) : bool :=
  match s with
  | EmptyString => true
  | String c rest =>
      negb (if previous_is_cased then is_upper c else is_lower c)
      && in_title_case_from (is_cased c) rest
  end.

Definition in_title_case (s : string) : bool := in_title_case_from false s.

End Str.

(** ** JSON numbers

    [json.loads] gives an [int] or a [float].  [float(n)] is the double
    nearest to [n], ties to even. *)
Definition float_of_int (n : Z) : float :=
  SF2Prim (binary_normalize prec emax n 0 false).

(** The integer a float is, when it is one. *)
Definition float_to_int (x : float) : option Z :=
  match Prim2SF x with
  | S754_zero _ => Some 0%Z
  | S754_finite sign m e =>
      if (0 <=? e)%Z then Some (cond_Zopp sign (Z.pos m * 2 ^ e))
      else if (Z.pos m mod 2 ^ (- e) =? 0)%Z
           then Some (cond_Zopp sign (Z.pos m / 2 ^ (- e)))
           else None
  | _ => None
  end.

(** A JSON number as a float with the same value: a float is itself, an
    int is the float [float(n)] when that float is exactly [n]. *)
Definition as_float (v : pyval) : option float :=
  match v with
  | PFloat x => Some x
  | PInt n =>
      match float_to_int (float_of_int n) with
      | Some n' => if (n' =? n)%Z then Some (float_of_int n) else None
      | None => None
      end
  | _ => None
  end.

(** A JSON number as an int with the same value: an int is itself, a float
    is the integer it is, when it is one. *)
Definition as_int (v : pyval) : option Z :=
  match v with
  | PInt n => Some n
  | PFloat x => float_to_int x
  | _ => None
  end.

(** ** Subscripts and method calls on Python values *)

Fixpoint dict_get (items : list (string * pyval)) (k : string) : option pyval :=
  match items with
  | [] => None
  | (k', v) :: rest => if String.eqb k' k then Some v else dict_get rest k
  end.

(** Python's index normalisation: a negative index counts from the end. *)
Definition norm_index (len : nat) (i : Z) : option nat :=
  let n := Z.of_nat len in
  let j := if (i <? 0)%Z then (i + n)%Z else i in
  if ((0 <=? j) && (j <? n))%Z then Some (Z.to_nat j) else None.

Definition str_at (s : string) (j : nat) : option string :=
  match String.get j s with
  | Some c => Some (String c EmptyString)
  | None => None
  end.

(** [obj[idx]] *)
Definition getitem (obj : pyval) (idx : index) : result pyval :=
  match obj, idx with
  | PDict items, IKey k =>
      match dict_get items k with
      | Some v => inr v
      | None => inl (KeyError idx)
      end
  | PDict _, IInt _ => inl (KeyError idx)
  | PList items, IInt i =>
      match norm_index (List.length items) i with
      | Some j =>
          match nth_error items j with
          | Some v => inr v
          | None => inl (IndexError obj)
          end
      | None => inl (IndexError obj)
      end
  | PStr s, IInt i =>
      match norm_index (String.length s) i with
      | Some j =>
          match str_at s j with
          | Some c => inr (PStr c)
          | None => inl (IndexError obj)
          end
      | None => inl (IndexError obj)
      end
  | _, _ => inl (TypeError obj idx)
  end.

(** ** The response model *)

Record WeatherResponse : Type := mkWeatherResponse {
  city : string;
  temperature : float;
  description : string;
  humidity : Z;
  wind_speed : float;
  icon : string;
  country : string
}.

(** ** The outbound call *)

Record request : Type := mkRequest {
  method : string;
  url : string;
  params : list (string * string)
}.

(** What the handler reads of the provider's response: the status and the
    decoded body, [None] when the body is not JSON. *)
Record response : Type := mkResponse {
  status_code : Z;
  json : option pyval
}.

(** [response.json()] *)
Definition response_json (r : response) : result pyval :=
  match json r with
  | Some data => inr data
  | None => inl JSONDecodeError
  end.

(** What lines 71 and 72 lead to: [httpx.AsyncClient()] raises, and
    [client.get] is not called; or the client is there and [client.get] is
    called, which raises or returns a response. *)
Inductive exchange : Type :=
| NoClient (e : exn)
| Called (r : result response).

(** The outcome of the two lines for the handler. *)
Definition outcome (x : exchange) : result response :=
  match x with
  | NoClient e => inl e
  | Called r => r
  end.

(** ** Process state *)

Record world : Type := mkWorld {
  environ : string -> option string;
  (** value of the counter [weather_requests_total] *)
  weather_requests : N;
  (** observations of the histogram [request_duration_seconds], newest first *)
  request_duration : list float;
  (** the wall clock: the [n]-th call of [time.time()] returns [clock n] *)
  clock : nat -> float;
  ticks : nat;
  (** the HTTP side of the process: what lines 71 and 72 lead to when [n]
      calls were made before *)
  provider : nat -> request -> exchange;
  (** the calls of [client.get] made so far, oldest first *)
  outbound : list request
}.

Definition set_weather_requests (n : N) (w : world) : world :=
  mkWorld (environ w) n (request_duration w) (clock w) (ticks w)
          (provider w) (outbound w).

Definition set_request_duration (h : list float) (w : world) : world :=
  mkWorld (environ w) (weather_requests w) h (clock w) (ticks w)
          (provider w) (outbound w).

Definition set_ticks (t : nat) (w : world) : world :=
  mkWorld (environ w) (weather_requests w) (request_duration w) (clock w) t
          (provider w) (outbound w).

Definition set_outbound (l : list request) (w : world) : world :=
  mkWorld (environ w) (weather_requests w) (request_duration w) (clock w)
          (ticks w) (provider w) l.

(** ** The monad of handlers *)

Definition M (A : Type) : Type := world -> result A * world.

Definition ret {A : Type} (a : A) : M A := fun w => (inr a, w).

Definition bind {A B : Type} (m : M A) (k : A -> M B) : M B :=
  fun w =>
    match m w with
    | (inl e, w') => (inl e, w')
    | (inr a, w') => k a w'
    end.

Definition raise {A : Type} (e : exn) : M A := fun w => (inl e, w).

Definition lift {A : Type} (r : result A) : M A := fun w => (r, w).

(** [try: body  except Exception as e: handler e] *)
Definition try_except {A : Type} (body : M A) (handler : exn -> M A) : M A :=
  fun w =>
    match body w with
    | (inl e, w') => handler e w'
    | (inr a, w') => (inr a, w')
    end.

Declare Scope monad_scope.
Delimit Scope monad_scope with monad.
Notation "x <- m ;; k" := (bind m (fun x => k))
  (at level 100, m at next level, right associativity) : monad_scope.
Notation "m ;; k" := (bind m (fun _ => k))
  (at level 100, right associativity) : monad_scope.

(** [time.time()] *)
Definition time_time : M float :=
  fun w => (inr (clock w (ticks w)), set_ticks (S (ticks w)) w).

(** [Counter.inc()] *)
Definition Counter_inc : M unit :=
  fun w => (inr tt, set_weather_requests (weather_requests w + 1)%N w).

(** [Histogram.observe(x)] *)
Definition Histogram_observe (x : float) : M unit :=
  fun w => (inr tt, set_request_duration (x :: request_duration w) w).

(** [os.getenv(name)] *)
Definition os_getenv (name : string) : M (option string) :=
  fun w => (inr (environ w name), w).

(** Lines 71 and 72:
    [async with httpx.AsyncClient() as client:
         response = await client.get(url, params=params)].
    The call is logged when the client could be constructed. *)
Definition client_get (u : string) (ps : list (string * string)) : M response :=
  fun w =>
    let req := mkRequest "GET" u ps in
    match provider w (List.length (outbound w)) req with
    | NoClient e => (inl e, w)
    | Called r => (r, set_outbound (outbound w ++ [req]) w)
    end.

(** Line 71 alone, before the call [req]: [httpx.AsyncClient()] *)
Definition AsyncClient (req : request) : M unit :=
  fun w =>
    match provider w (List.length (outbound w)) req with
    | NoClient e => (inl e, w)
    | Called _ => (inr tt, w)
    end.

(** The state after the outbound call [req] was issued. *)
Definition sent (req : request) (w : world) : world :=
  set_outbound (outbound w ++ [req]) w.

(** The truth value of an [Optional[str]]: [None] and [""] are false. *)
Definition truthy (o : option string) : option string :=
  match o with
  | Some EmptyString => None
  | Some s => Some s
  | None => None
  end.

(** An [Optional[str]] inside an f-string *)
Definition format_value (o : option string) : string :=
  match o with
  | Some s => s
  | None => "None"
  end.

(** ** The application *)

Section Gateway.

(** [str(e)]: how an exception renders as text.  It is defined by the
    libraries that declare the classes (Starlette, httpx, pydantic,
    CPython), so the handler is parametric in it. *)
Variable str : exn -> string.

(** The field validation of the pydantic model, one function per declared
    field type: the validated value, or [None] when pydantic rejects. *)
Variable validate_str : pyval -> option string.
Variable validate_float : pyval -> option float.
Variable validate_int : pyval -> option Z.

(** [str.title()], a builtin of CPython that works on the code points of
    any text.  [Str.title] is what it does on ASCII text. *)
Variable title : string -> string.

Definition title_on_ascii : Prop :=
  forall s, Str.is_ascii s = true -> title s = Str.title s.

(** What pydantic does with the JSON value the field declares: a string is
    taken as it is, and a number is taken at its value, be it written as
    an int or as a float. *)
Definition validators_keep_values : Prop :=
  (forall s, validate_str (PStr s) = Some s) /\
  (forall v x, as_float v = Some x -> validate_float v = Some x) /\
  (forall v n, as_int v = Some n -> validate_int v = Some n).

(** [obj.title()] *)
Definition call_title (obj : pyval) : result pyval :=
  match obj with
  | PStr s => inr (PStr (title s))
  | _ => inl (AttributeError obj "title")
  end.

(** [WeatherResponse(city=..., temperature=..., ...)] *)
Definition WeatherResponse_init
    (a_city a_temperature a_description a_humidity a_wind_speed
     a_icon a_country : pyval) : result WeatherResponse :=
  match validate_str a_city, validate_float a_temperature,
        validate_str a_description, validate_int a_humidity,
        validate_float a_wind_speed, validate_str a_icon,
        validate_str a_country with
  | Some c, Some t, Some d, Some h, Some ws, Some i, Some co =>
      inr (mkWeatherResponse c t d h ws i co)
  | _, _, _, _, _, _, _ =>
      inl (ValidationError
             [("city", a_city); ("temperature", a_temperature);
              ("description", a_description); ("humidity", a_humidity);
              ("wind_speed", a_wind_speed); ("icon", a_icon);
              ("country", a_country)])
  end.

(** Lines 79 to 87: the keyword arguments are evaluated in the order they
    are written, then the model is built. *)
Definition weather_data_of (data : pyval) : result WeatherResponse :=
  (let? a_city := getitem data (IKey "name") in
   let? main := getitem data (IKey "main") in
   let? a_temperature := getitem main (IKey "temp") in
   let? weather := getitem data (IKey "weather") in
   let? weather0 := getitem weather (IInt 0) in
   let? descr := getitem weather0 (IKey "description") in
   let? a_description := call_title descr in
   let? main' := getitem data (IKey "main") in
   let? a_humidity := getitem main' (IKey "humidity") in
   let? wind := getitem data (IKey "wind") in
   let? a_wind_speed := getitem wind (IKey "speed") in
   let? weather' := getitem data (IKey "weather") in
   let? weather0' := getitem weather' (IInt 0) in
   let? a_icon := getitem weather0' (IKey "icon") in
   let? sys := getitem data (IKey "sys") in
   let? a_country := getitem sys (IKey "country") in
   WeatherResponse_init a_city a_temperature a_description a_humidity
                        a_wind_speed a_icon a_country)%result.

(** The outbound request of lines 64 to 72. *)
Definition weather_url (base_url : option string) : string :=
  format_value base_url ++ "/weather".

Definition weather_params (city api_key : string) : list (string * string) :=
  [("q", city); ("appid", api_key); ("units", "metric")].

(** The two [except] clauses, tried in order: the exception that leaves
    the handler when [e] was raised inside the [try] block. *)
Definition reraised (e : exn) : exn :=
  if is_RequestError e
  then HTTPException 503 "Weather service unavailable"
  else HTTPException 500 (str e).

Definition on_exception {A : Type} (e : exn) : M A := raise (reraised e).

(** [GET /weather/{city}] *)
Definition get_weather (city : string) : M WeatherResponse :=
  (start_time <- time_time ;;
   Counter_inc ;;
   try_except
     (api_key <- os_getenv "OPENWEATHER_API_KEY" ;;
      base_url <- os_getenv "OPENWEATHER_BASE_URL" ;;
      match truthy api_key with
      | None => raise (HTTPException 500 "API key not configured")
      | Some key =>
          response <- client_get (weather_url base_url)
                                 (weather_params city key) ;;
          if negb (status_code response =? 200)%Z
          then raise (HTTPException 404 "City not found")
          else
            data <- lift (response_json response) ;;
            weather_data <- lift (weather_data_of data) ;;
            now <- time_time ;;
            Histogram_observe (PrimFloat.sub now start_time) ;;
            ret weather_data
      end)
     on_exception)%monad.

(** [GET /] and [GET /health]: a JSON object of string fields. *)
Definition payload : Type := list (string * string).

Definition root : M payload :=
  ret [("message", "Weather Dashboard API is running! 🌤️")].

Definition health_check : M payload :=
  ret [("status", "healthy"); ("service", "weather-api")].

(** The server answering requests to [/weather/{city}] one after another. *)
Fixpoint serve (cities : list string) (w : world)
  : list (result WeatherResponse) * world :=
  match cities with
  | [] => ([], w)
  | c :: rest =>
      let (r, w1) := get_weather c w in
      let (rs, w2) := serve rest w1 in
      (r :: rs, w2)
  end.

(** Lines 77 to 87 on a response. *)
Definition processed (resp : response) : result WeatherResponse :=
  rbind (response_json resp) weather_data_of.

(** *** Requests in flight together

    The handler is a coroutine on the event loop of one thread: it runs
    without interruption from one [await] to the next.  Its awaits (entering
    the client, the call, leaving the client) lie between the reading of
    the configuration and the test of the status; no metric is touched
    between them, so they are taken as one suspension.  A request in flight
    is then in one of three states, and the event loop runs, in any order,
    one segment of one request at a time. *)

(** Lines 54 to 71: up to the outbound call, which it returns. *)
Definition before_await (city : string) : M (float * request) :=
  (start_time <- time_time ;;
   Counter_inc ;;
   try_except
     (api_key <- os_getenv "OPENWEATHER_API_KEY" ;;
      base_url <- os_getenv "OPENWEATHER_BASE_URL" ;;
      match truthy api_key with
      | None => raise (HTTPException 500 "API key not configured")
      | Some key =>
          let req := mkRequest "GET" (weather_url base_url)
                               (weather_params city key) in
          AsyncClient req ;;
          ret (start_time, req)
      end)
     on_exception)%monad.

(** Lines 72 to 97: from the outcome of the outbound call on. *)
Definition after_await (start_time : float) (answer : result response)
  : M WeatherResponse :=
  (try_except
     (response <- lift answer ;;
      if negb (status_code response =? 200)%Z
      then raise (HTTPException 404 "City not found")
      else
        data <- lift (response_json response) ;;
        weather_data <- lift (weather_data_of data) ;;
        now <- time_time ;;
        Histogram_observe (PrimFloat.sub now start_time) ;;
        ret weather_data)
     on_exception)%monad.

Inductive task : Type :=
| Accepted (city : string)
| Awaiting (start_time : float) (req : request)
| Finished (r : result WeatherResponse).

Definition start (city : string) (w : world) : task * world :=
  match before_await city w with
  | (inl e, w1) => (Finished (inl e), w1)
  | (inr (start_time, req), w1) => (Awaiting start_time req, sent req w1)
  end.

Definition finish (start_time : float) (answer : result response) (w : world)
  : task * world :=
  let (r, w1) := after_await start_time answer w in (Finished r, w1).

Definition config : Type := (world * list task)%type.

(** One turn of the event loop: a request that was accepted runs to its
    await, or a request that awaits gets an outcome of its call, whatever
    it is, and runs to its end. *)
Inductive step : config -> config -> Prop :=
| step_start (w w' : world) (pre post : list task) (city : string) (t : task) :
    start city w = (t, w') ->
    step (w, pre ++ Accepted city :: post) (w', pre ++ t :: post)
| step_finish (w w' : world) (pre post : list task) (start_time : float)
              (req : request) (answer : result response) (t : task) :
    finish start_time answer w = (t, w') ->
    step (w, pre ++ Awaiting start_time req :: post) (w', pre ++ t :: post).

Inductive steps : config -> config -> Prop :=
| steps_refl (c : config) : steps c c
| steps_step (c1 c2 c3 : config) : step c1 c2 -> steps c2 c3 -> steps c1 c3.

Definition has_started (t : task) : bool :=
  match t with
  | Accepted _ => false
  | _ => true
  end.

Definition has_finished (t : task) : bool :=
  match t with
  | Finished _ => true
  | _ => false
  end.

Definition has_succeeded (t : task) : bool :=
  match t with
  | Finished (inr _) => true
  | _ => false
  end.

Definition count (f : task -> bool) (pool : list task) : nat :=
  List.length (filter f pool).

End Gateway.

Arguments on_exception str {A} e.

(** ** Vocabulary of the statements *)

Definition API_KEY : string := "OPENWEATHER_API_KEY".
Definition BASE_URL : string := "OPENWEATHER_BASE_URL".

(** The state after the two statements before the [try]: one clock reading
    taken, the counter incremented. *)
Definition entered (w : world) : world :=
  set_weather_requests (weather_requests w + 1)%N (set_ticks (S (ticks w)) w).

(** The state after the duration was observed on the success path. *)
Definition observed (w : world) : world :=
  set_request_duration
    (PrimFloat.sub (clock w (ticks w)) (clock w (pred (ticks w)))
       :: request_duration w)
    (set_ticks (S (ticks w)) w).

(** The request the handler sends for [city] when the key is [key]. *)
Definition request_for (city key : string) (w : world) : request :=
  mkRequest "GET" (weather_url (environ w BASE_URL)) (weather_params city key).

(** What lines 71 and 72 lead to for that request. *)
Definition exchanged (city key : string) (w : world) : exchange :=
  provider w (List.length (outbound w)) (request_for city key w).

Definition upstream (city key : string) (w : world) : result response :=
  outcome (exchanged city key w).

(** The state after lines 71 and 72 of that request: the call is logged
    when the client could be constructed. *)
Definition exchange_done (city key : string) (w : world) : world :=
  match exchanged city key w with
  | NoClient _ => entered w
  | Called _ => sent (request_for city key w) (entered w)
  end.

(** [httpx.AsyncClient()] can be constructed whenever the process asks. *)
Definition client_available (w : world) : Prop :=
  forall n req e, provider w n req <> NoClient e.

Definition is_ok {A : Type} (r : result A) : bool :=
  match r with
  | inr _ => true
  | inl _ => false
  end.

Definition successes {A : Type} (rs : list (result A)) : nat :=
  List.length (filter is_ok rs).

Definition failures {A : Type} (rs : list (result A)) : nat :=
  List.length (filter (fun r => negb (is_ok r)) rs).

(** The status carried by the error a request ended with. *)
Definition status_of (e : exn) : option Z :=
  match e with
  | HTTPException c _ => Some c
  | _ => None
  end.

(** The body [data] has the seven fields the handler reads, with these
    values; the description is a string. *)
Definition has_weather_fields (data v_name v_temp : pyval) (descr : string)
    (v_hum v_speed v_icon v_country : pyval) : Prop :=
  getitem data (IKey "name") = inr v_name /\
  (exists main,
      getitem data (IKey "main") = inr main /\
      getitem main (IKey "temp") = inr v_temp /\
      getitem main (IKey "humidity") = inr v_hum) /\
  (exists weather weather0,
      getitem data (IKey "weather") = inr weather /\
      getitem weather (IInt 0) = inr weather0 /\
      getitem weather0 (IKey "description") = inr (PStr descr) /\
      getitem weather0 (IKey "icon") = inr v_icon) /\
  (exists wind,
      getitem data (IKey "wind") = inr wind /\
      getitem wind (IKey "speed") = inr v_speed) /\
  (exists sys,
      getitem data (IKey "sys") = inr sys /\
      getitem sys (IKey "country") = inr v_country).

(** The six other values are what the response model declares: a JSON
    string for a [str] field, a JSON number for a [float] or [int] field.
    [temp], [hum] and [speed] are the values of the numbers, which a
    number has when no rounding is needed to write it in the declared
    type. *)
Definition typed_values (v_name v_temp v_hum v_speed v_icon v_country : pyval)
    (name : string) (temp : float) (hum : Z) (speed : float)
    (icon country : string) : Prop :=
  v_name = PStr name /\
  as_float v_temp = Some temp /\
  as_int v_hum = Some hum /\
  as_float v_speed = Some speed /\
  v_icon = PStr icon /\
  v_country = PStr country.

(** Lines 71 and 72 raise an [httpx.RequestError], of any subclass. *)
Definition transport_failure (city : string) (w : world) : Prop :=
  exists key kind message,
    truthy (environ w API_KEY) = Some key /\
    upstream city key w = inl (RequestError kind message).

(** They raise one of the subclasses that stand for a failure of the
    transport: connection refused, name not resolved, timeout and the
    like. *)
Definition transport_level_failure (city : string) (w : world) : Prop :=
  exists key kind message,
    truthy (environ w API_KEY) = Some key /\
    upstream city key w = inl (RequestError kind message) /\
    is_transport_level kind = true.

(** ** One concrete choice of the library functions, for the examples *)

Module Lib.

Definition decimal (n : Z) : string := NilEmpty.string_of_int (Z.to_int n).

Definition type_name (v : pyval) : string :=
  match v with
  | PNone => "NoneType"
  | PBool _ => "bool"
  | PInt _ => "int"
  | PFloat _ => "float"
  | PStr _ => "str"
  | PList _ => "list"
  | PDict _ => "dict"
  end.

(** [str(e)] as the current releases render it: Starlette prints the
    status and the detail of an [HTTPException], httpx the message,
    CPython the [repr] of a missing key.  The text of a pydantic
    [ValidationError] is abridged to its class name. *)
Definition str (e : exn) : string :=
  match e with
  | HTTPException c d => decimal c ++ ": " ++ d
  | RequestError _ m => m
  | KeyError (IKey k) => "'" ++ k ++ "'"
  | KeyError (IInt i) => decimal i
  | IndexError (PStr _) => "string index out of range"
  | IndexError _ => "list index out of range"
  | TypeError (PList _) _ => "list indices must be integers or slices, not str"
  | TypeError (PStr _) _ => "string indices must be integers, not 'str'"
  | TypeError v _ => "'" ++ type_name v ++ "' object is not subscriptable"
  | AttributeError v a =>
      "'" ++ type_name v ++ "' object has no attribute '" ++ a ++ "'"
  | JSONDecodeError => "Expecting value: line 1 column 1 (char 0)"
  | ValidationError _ => "ValidationError"
  | ValueError m => m
  end.

(** Validators that take a string for a string field and a number for a
    number field: a float field takes an int as [float(n)], an int field
    takes a float that is an integer. *)
Definition validate_str (v : pyval) : option string :=
  match v with PStr s => Some s | _ => None end.

Definition validate_float (v : pyval) : option float :=
  match v with
  | PFloat x => Some x
  | PInt n => Some (float_of_int n)
  | _ => None
  end.

Definition validate_int (v : pyval) : option Z :=
  match v with
  | PInt n => Some n
  | PFloat x => float_to_int x
  | _ => None
  end.

(** Texts in the examples are ASCII. *)
Definition title : string -> string := Str.title.

Definition get_weather : string -> M WeatherResponse :=
  get_weather str validate_str validate_float validate_int title.

(** A provider body of the documented shape. *)
Definition body (name : string) (temp : float) (descr : string) (hum : Z)
    (speed : float) (icon country : string) : pyval :=
  PDict [("name", PStr name);
         ("main", PDict [("temp", PFloat temp); ("humidity", PInt hum)]);
         ("weather", PList [PDict [("description", PStr descr);
                                   ("icon", PStr icon)]]);
         ("wind", PDict [("speed", PFloat speed)]);
         ("sys", PDict [("country", PStr country)])].

Definition london : pyval :=
  body "London" 11.5%float "light rain" 81 4.25%float "10d" "GB".

Definition env (key base : option string) (name : string) : option string :=
  if String.eqb name API_KEY then key
  else if String.eqb name BASE_URL then base
  else None.

(** A clock that reads 100.0, 100.5, 101.0, ... *)
Fixpoint half_seconds (n : nat) : float :=
  match n with
  | O => 100%float
  | S k => PrimFloat.add (half_seconds k) 0.5%float
  end.

(** A fresh process with the given configuration whose provider always
    gives [r]. *)
Definition world_of (key base : option string) (r : result response) : world :=
  mkWorld (env key base) 0 [] half_seconds 0 (fun _ _ => Called r) [].

Definition configured : result response -> world :=
  world_of (Some "k3y") (Some "https://api.openweathermap.org/data/2.5").

(** Two requests in flight together: London starts, Paris starts, Paris
    gets its answer first, then London is answered 404. *)
Definition start : string -> world -> task * world := start str.

Definition finish : float -> result response -> world -> task * world :=
  finish str validate_str validate_float validate_int title.

Definition paris : pyval :=
  body "Paris" 14%float "few clouds" 60 2.5%float "02d" "FR".

Definition w0 : world := configured (inl (RequestError ConnectError "unused")).
Definition w1 : world := snd (start "London" w0).
Definition w2 : world := snd (start "Paris" w1).
Definition w3 : world :=
  snd (finish 100.5%float (inr (mkResponse 200 (Some paris))) w2).
Definition w4 : world :=
  snd (finish 100%float (inr (mkResponse 404 None)) w3).

Definition london_request : request := request_for "London" "k3y" w0.
Definition paris_request : request := request_for "Paris" "k3y" w0.

Definition paris_weather : WeatherResponse :=
  mkWeatherResponse "Paris" 14%float "Few Clouds" 60 2.5%float "02d" "FR".

(** A body with a whole-number temperature, a humidity written as a float
    and a description in mixed case. *)
Definition oslo : pyval :=
  PDict [("name", PStr "Oslo");
         ("main", PDict [("temp", PInt (-3)); ("humidity", PFloat 81%float)]);
         ("weather", PList [PDict [("description", PStr "LIGHT snow");
                                   ("icon", PStr "13d")]]);
         ("wind", PDict [("speed", PInt 7)]);
         ("sys", PDict [("country", PStr "NO")])].

(** httpx refuses a URL without [http://] or [https://] before it sends
    anything; any other request gets [r]. *)
Definition has_http_scheme (u : string) : bool :=
  String.prefix "http://" u || String.prefix "https://" u.

Definition httpx (r : result response) (n : nat) (req : request) : exchange :=
  if has_http_scheme (url req) then Called r
  else Called (inl (RequestError UnsupportedProtocol
         "Request URL is missing an 'http://' or 'https://' protocol.")).

(** A process with a key and no base URL: the URL of its calls is
    [None/weather]. *)
Definition unset_base_url : world :=
  mkWorld (env (Some "k3y") None) 0 [] half_seconds 0
          (httpx (inr (mkResponse 200 (Some london)))) [].

(** A process with a key, a base URL and a proxy variable whose scheme
    httpx does not know: [httpx.AsyncClient()] raises [ValueError]. *)
Definition bad_proxy_env (name : string) : option string :=
  if String.eqb name "ALL_PROXY" then Some "smtp://proxy.example"
  else env (Some "k3y") (Some "https://api.openweathermap.org/data/2.5") name.

Definition bad_proxy : world :=
  mkWorld bad_proxy_env 0 [] half_seconds 0
          (fun _ _ =>
             NoClient (ValueError
               "Unknown scheme for proxy URL URL('smtp://proxy.example')"))
          [].

End Lib.

(** ** The routes of the application *)

Section Routes.

Variable str : exn -> string.
Variable validate_str : pyval -> option string.
Variable validate_float : pyval -> option float.
Variable validate_int : pyval -> option Z.
Variable title : string -> string.

(** [prometheus_client.generate_latest()]: the text exposition of the
    registry of the process, a library function of the process state. *)
Variable generate_latest : world -> string.

(** [fastapi.responses.Response(content, media_type=...)] *)
Record Response : Type := mkTextResponse {
  content : string;
  media_type : string
}.

(** [GET /metrics] *)
Definition metrics : M Response :=
  fun w => (inr (mkTextResponse (generate_latest w) "text/plain"), w).

(** The four routes the decorators register. *)
Inductive route : Type :=
| GET_root
| GET_weather (city : string)
| GET_metrics
| GET_health.

(** What a handler hands back to the framework. *)
Inductive answer : Type :=
| Json (p : payload)
| Model (m : WeatherResponse)
| Raw (r : Response).

Definition dispatch (r : route) : M answer :=
  match r with
  | GET_root => (p <- root ;; ret (Json p))%monad
  | GET_weather city =>
      (m <- get_weather str validate_str validate_float validate_int title
                        city ;;
       ret (Model m))%monad
  | GET_metrics => (r <- metrics ;; ret (Raw r))%monad
  | GET_health => (p <- health_check ;; ret (Json p))%monad
  end.

(** The server answering requests to any of its routes one after another. *)
Fixpoint serve_routes (rs : list route) (w : world)
  : list (result answer) * world :=
  match rs with
  | [] => ([], w)
  | r :: rest =>
      let (a, w1) := dispatch r w in
      let (answers, w2) := serve_routes rest w1 in
      (a :: answers, w2)
  end.

Definition is_weather (r : route) : bool :=
  match r with
  | GET_weather _ => true
  | _ => false
  end.

Definition is_model (a : result answer) : bool :=
  match a with
  | inr (Model _) => true
  | _ => false
  end.

End Routes.

(** The top-level keys of the provider's body that the handler reads. *)
Definition read_keys : list string := ["name"; "main"; "weather"; "wind"; "sys"].

(** The requests a sequence of calls for [cities] sends with key [key]. *)
Definition requests_for (cities : list string) (key : string) (w : world)
  : list request :=
  map (fun c => request_for c key w) cities.

(** The calls made so far against the handlers started so far. *)
Definition calls_balance (c c' : config) : Prop :=
  environ (fst c') = environ (fst c) /\
  provider (fst c') = provider (fst c) /\
  (List.length (outbound (fst c')) + count has_started (snd c)
   <= List.length (outbound (fst c)) + count has_started (snd c'))%nat /\
  (truthy (environ (fst c) API_KEY) = None ->
   outbound (fst c') = outbound (fst c)) /\
  (truthy (environ (fst c) API_KEY) <> None ->
   client_available (fst c) ->
   (List.length (outbound (fst c')) + count has_started (snd c))%nat =
   (List.length (outbound (fst c)) + count has_started (snd c'))%nat).

(** * Properties *)

(** ** How one request runs *)

Section Properties.

Variable str : exn -> string.
Variable validate_str : pyval -> option string.
Variable validate_float : pyval -> option float.
Variable validate_int : pyval -> option Z.
Variable title : string -> string.

Local Abbreviation handler :=
  (get_weather str validate_str validate_float validate_int title).
Local Abbreviation build :=
  (weather_data_of validate_str validate_float validate_int title).
Local Abbreviation typed :=
  (validators_keep_values validate_str validate_float validate_int).
Local Abbreviation process :=
  (processed validate_str validate_float validate_int title).
Local Abbreviation begin := (start str).
Local Abbreviation complete :=
  (finish str validate_str validate_float validate_int title).
Local Abbreviation turn :=
  (step str validate_str validate_float validate_int title).
Local Abbreviation turns :=
  (steps str validate_str validate_float validate_int title).

Lemma get_weather_without_key (city : string) (w : world) :
  truthy (environ w API_KEY) = None ->
  handler city w =
    (inl (HTTPException 500 (str (HTTPException 500 "API key not configured"))),
     entered w).
Proof.
  intros Hkey. unfold get_weather, bind, try_except, os_getenv. cbn.
  unfold API_KEY in Hkey. rewrite Hkey. reflexivity.
Qed.

Lemma get_weather_with_key (city : string) (w : world) (key : string) :
  truthy (environ w API_KEY) = Some key ->
  handler city w =
    let w1 := exchange_done city key w in
    match upstream city key w with
    | inl e => (inl (reraised str e), w1)
    | inr resp =>
        if (status_code resp =? 200)%Z
        then match process resp with
             | inl e => (inl (reraised str e), w1)
             | inr wd => (inr wd, observed w1)
             end
        else (inl (reraised str (HTTPException 404 "City not found")), w1)
    end.
Proof.
  intros Hkey. unfold get_weather, bind, try_except, os_getenv. cbn.
  unfold API_KEY in Hkey. rewrite Hkey.
  unfold upstream, exchange_done, exchanged, request_for, processed,
    client_get, BASE_URL.
  cbn.
  destruct (provider w (List.length (outbound w)) _) as [e | [e | resp]]; cbn.
  - reflexivity.
  - reflexivity.
  - destruct (status_code resp =? 200)%Z; cbn; [| reflexivity].
    unfold lift. destruct (response_json resp) as [e | data]; cbn.
    + reflexivity.
    + destruct (build data) as [e | wd]; reflexivity.
Qed.

(** The extraction raises [KeyError], [IndexError], [TypeError],
    [AttributeError], [JSONDecodeError] or [ValidationError], never an
    httpx error. *)
Lemma getitem_raises (obj : pyval) (idx : index) (e : exn) :
  getitem obj idx = inl e -> is_RequestError e = false.
Proof.
  unfold getitem. intros H.
  repeat match type of H with
         | context [match ?x with _ => _ end] => destruct x
         end;
    inversion H; reflexivity.
Qed.

Lemma call_title_raises (obj : pyval) (e : exn) :
  call_title title obj = inl e -> is_RequestError e = false.
Proof. destruct obj; cbn; intros H; inversion H; reflexivity. Qed.

Lemma WeatherResponse_init_raises (a b c d f g h : pyval) (e : exn) :
  WeatherResponse_init validate_str validate_float validate_int
                       a b c d f g h = inl e ->
  is_RequestError e = false.
Proof.
  unfold WeatherResponse_init. intros H.
  repeat match type of H with
         | context [match ?x with _ => _ end] => destruct x
         end;
    inversion H; reflexivity.
Qed.

Lemma rbind_inl {A B : Type} (r : result A) (k : A -> result B) (e : exn) :
  rbind r k = inl e ->
  r = inl e \/ exists a, r = inr a /\ k a = inl e.
Proof.
  destruct r as [e' | a]; cbn; intros H.
  - left. congruence.
  - right. exists a. split; [reflexivity | exact H].
Qed.

Lemma weather_data_of_raises (data : pyval) (e : exn) :
  build data = inl e -> is_RequestError e = false.
Proof.
  unfold weather_data_of. intros H.
  repeat match type of H with
         | rbind _ _ = inl _ =>
             apply rbind_inl in H;
             destruct H as [H | [? [_ H]]];
             [ first [ exact (getitem_raises _ _ _ H)
                     | exact (call_title_raises _ _ H) ] | ]
         end.
  exact (WeatherResponse_init_raises _ _ _ _ _ _ _ _ H).
Qed.

Lemma processed_raises (resp : response) (e : exn) :
  process resp = inl e -> is_RequestError e = false.
Proof.
  unfold processed, response_json. destruct (json resp) as [data |]; cbn.
  - apply weather_data_of_raises.
  - intros H. inversion H. reflexivity.
Qed.

Lemma reraised_other (e : exn) :
  is_RequestError e = false -> reraised str e = HTTPException 500 (str e).
Proof. unfold reraised. intros ->. reflexivity. Qed.

(** ** The contract of the endpoints *)

(** *** Title case on ASCII text *)

Lemma is_cased_to_upper (c : ascii) :
  Str.is_cased (Str.to_upper c) = Str.is_cased c.
Proof. destruct c as [[] [] [] [] [] [] [] []]; reflexivity. Qed.

Lemma is_cased_to_lower (c : ascii) :
  Str.is_cased (Str.to_lower c) = Str.is_cased c.
Proof. destruct c as [[] [] [] [] [] [] [] []]; reflexivity. Qed.

Lemma is_upper_to_lower (c : ascii) : Str.is_upper (Str.to_lower c) = false.
Proof. destruct c as [[] [] [] [] [] [] [] []]; reflexivity. Qed.

Lemma is_lower_to_upper (c : ascii) : Str.is_lower (Str.to_upper c) = false.
Proof. destruct c as [[] [] [] [] [] [] [] []]; reflexivity. Qed.

Lemma to_lower_to_upper (c : ascii) :
  Str.to_lower (Str.to_upper c) = Str.to_lower c.
Proof. destruct c as [[] [] [] [] [] [] [] []]; reflexivity. Qed.

Lemma to_lower_twice (c : ascii) :
  Str.to_lower (Str.to_lower c) = Str.to_lower c.
Proof. destruct c as [[] [] [] [] [] [] [] []]; reflexivity. Qed.

(** A letter is upper case or lower case, not both. *)
Lemma not_upper_is_to_upper (c : ascii) :
  Str.is_lower c = false -> Str.to_upper c = c.
Proof. unfold Str.to_upper. intros ->. reflexivity. Qed.

Lemma not_lower_is_to_lower (c : ascii) :
  Str.is_upper c = false -> Str.to_lower c = c.
Proof. unfold Str.to_lower. intros ->. reflexivity. Qed.

Lemma to_upper_of_lower (c : ascii) :
  Str.to_upper (Str.to_lower c) = Str.to_upper c.
Proof. destruct c as [[] [] [] [] [] [] [] []]; reflexivity. Qed.

(** What [Str.title] returns is in title case and is the text it was
    given, up to the case of its letters. *)
Lemma title_from_in_title_case (s : string) (b : bool) :
  Str.in_title_case_from b (Str.title_from b s) = true.
Proof.
  revert b. induction s as [| c rest IH]; intros b; cbn; [reflexivity |].
  destruct b.
  - rewrite is_upper_to_lower, is_cased_to_lower. cbn. apply IH.
  - rewrite is_lower_to_upper, is_cased_to_upper. cbn. apply IH.
Qed.

Lemma title_from_same_letters (s : string) (b : bool) :
  Str.lower (Str.title_from b s) = Str.lower s.
Proof.
  revert b. induction s as [| c rest IH]; intros b; cbn; [reflexivity |].
  rewrite IH. destruct b.
  - rewrite to_lower_twice. reflexivity.
  - rewrite to_lower_to_upper. reflexivity.
Qed.

(** These two properties determine the result: a text in title case with
    the letters of [s] is [Str.title s]. *)
Lemma title_from_unique (s t : string) (b : bool) :
  Str.in_title_case_from b t = true ->
  Str.lower t = Str.lower s ->
  t = Str.title_from b s.
Proof.
  revert t b. induction s as [| c rest IH]; intros [| d t] b Hcase Hlow;
    cbn in Hlow; try discriminate Hlow; [reflexivity |].
  injection Hlow as Hc Hrest. cbn in Hcase |- *.
  apply andb_true_iff in Hcase as [Hd Ht].
  assert (Str.is_cased d = Str.is_cased c) as Hcased.
  { rewrite <- (is_cased_to_lower d), Hc. apply is_cased_to_lower. }
  rewrite Hcased in Ht. rewrite <- (IH t _ Ht Hrest). f_equal.
  destruct b; apply negb_true_iff in Hd.
  - rewrite <- Hc. symmetry. apply not_lower_is_to_lower. exact Hd.
  - rewrite <- (to_upper_of_lower c), <- Hc, to_upper_of_lower.
    symmetry. apply not_upper_is_to_upper. exact Hd.
Qed.

(** The handler hands the values of the body to the model as they are,
    the description through [str.title()]. *)
Lemma weather_data_of_fields (data v_name v_temp : pyval) (descr : string)
    (v_hum v_speed v_icon v_country : pyval) :
  has_weather_fields data v_name v_temp descr v_hum v_speed v_icon v_country ->
  build data =
    WeatherResponse_init validate_str validate_float validate_int
      v_name v_temp (PStr (title descr)) v_hum v_speed v_icon v_country.
Proof.
  intros (Hname & (main & Hmain & Htemp & Hhum)
          & (weather & weather0 & Hw & Hw0 & Hdescr & Hicon)
          & (wind & Hwind & Hspeed) & (sys & Hsys & Hcountry)).
  unfold weather_data_of.
  rewrite Hname, Hmain; cbn [rbind].
  rewrite Htemp, Hw; cbn [rbind].
  rewrite Hw0; cbn [rbind].
  rewrite Hdescr; cbn [rbind call_title].
  rewrite Hhum, Hwind; cbn [rbind].
  rewrite Hspeed; cbn [rbind].
  rewrite Hicon, Hsys; cbn [rbind].
  rewrite Hcountry; cbn [rbind].
  reflexivity.
Qed.

(** The model keeps typed values. *)
Lemma WeatherResponse_init_typed
    (v_name v_temp v_hum v_speed v_icon v_country : pyval)
    (name : string) (temp : float) (descr : string) (hum : Z) (speed : float)
    (icon country : string) :
  typed ->
  typed_values v_name v_temp v_hum v_speed v_icon v_country
               name temp hum speed icon country ->
  WeatherResponse_init validate_str validate_float validate_int
    v_name v_temp (PStr descr) v_hum v_speed v_icon v_country =
    inr (mkWeatherResponse name temp descr hum speed icon country).
Proof.
  intros (Hs & Hf & Hi) (-> & Htemp & Hhum & Hspeed & -> & ->).
  unfold WeatherResponse_init.
  rewrite !Hs, (Hf _ _ Htemp), (Hi _ _ Hhum), (Hf _ _ Hspeed).
  reflexivity.
Qed.

(** Lines 71 and 72 touch nothing but the log of calls. *)
Lemma exchange_done_fields (city key : string) (w : world) :
  environ (exchange_done city key w) = environ w /\
  weather_requests (exchange_done city key w) = (weather_requests w + 1)%N /\
  request_duration (exchange_done city key w) = request_duration w /\
  clock (exchange_done city key w) = clock w /\
  ticks (exchange_done city key w) = S (ticks w) /\
  provider (exchange_done city key w) = provider w.
Proof.
  unfold exchange_done. destruct (exchanged city key w); repeat split.
Qed.

(** What one request does to the two metrics. *)
Lemma get_weather_metrics (city : string) (w : world) :
  weather_requests (snd (handler city w)) = (weather_requests w + 1)%N /\
  List.length (request_duration (snd (handler city w))) =
    (List.length (request_duration w)
     + if is_ok (fst (handler city w)) then 1 else 0)%nat.
Proof.
  destruct (truthy (environ w API_KEY)) as [key |] eqn:Hkey.
  - rewrite (get_weather_with_key _ _ _ Hkey). cbv zeta.
    destruct (exchange_done_fields city key w) as (_ & Hc & Hd & _).
    destruct (upstream city key w) as [e | resp]; cbn;
      [rewrite Hc, Hd; lia |].
    destruct (status_code resp =? 200)%Z; cbn; [| rewrite Hc, Hd; lia].
    destruct (process resp) as [e | wd]; cbn; rewrite Hc, Hd; lia.
  - rewrite (get_weather_without_key _ _ Hkey). cbn. lia.
Qed.

(** C1: when the provider answers 200 with a body that has the expected
    fields, the handler builds the response model from the provider's
    [name], [main.temp], [weather[0].description] title-cased,
    [main.humidity], [wind.speed], [weather[0].icon] and [sys.country],
    and from nothing else: it changes no value on the way.  Where the
    values are JSON strings and numbers, the handler returns a
    [WeatherResponse] whose fields are these values, a number keeping its
    value whether written as an int or as a float.  The description is
    what [str.title()] makes of the provider's, which for an ASCII text is
    that text in title case. *)
Theorem get_weather_maps_provider_fields
    (city : string) (w : world) (key : string) (resp : response)
    (data v_name v_temp : pyval) (descr : string)
    (v_hum v_speed v_icon v_country : pyval) :
  truthy (environ w API_KEY) = Some key ->
  upstream city key w = inr resp ->
  status_code resp = 200%Z ->
  json resp = Some data ->
  has_weather_fields data v_name v_temp descr v_hum v_speed v_icon v_country ->
  fst (handler city w) =
    match WeatherResponse_init validate_str validate_float validate_int
            v_name v_temp (PStr (title descr)) v_hum v_speed v_icon v_country
    with
    | inr weather_data => inr weather_data
    | inl e => inl (HTTPException 500 (str e))
    end /\
  (typed ->
   forall name temp hum speed icon country,
     typed_values v_name v_temp v_hum v_speed v_icon v_country
                  name temp hum speed icon country ->
     fst (handler city w) =
       inr {| city := name;
              temperature := temp;
              description := title descr;
              humidity := hum;
              wind_speed := speed;
              icon := icon;
              country := country |}) /\
  (title_on_ascii title -> Str.is_ascii descr = true ->
   Str.in_title_case (title descr) = true /\
   Str.lower (title descr) = Str.lower descr /\
   forall t, Str.in_title_case t = true -> Str.lower t = Str.lower descr ->
             t = title descr).
Proof.
  intros Hkey Hup Hstatus Hjson Hfields.
  assert (fst (handler city w) =
          match WeatherResponse_init validate_str validate_float validate_int
                  v_name v_temp (PStr (title descr)) v_hum v_speed v_icon
                  v_country
          with
          | inr weather_data => inr weather_data
          | inl e => inl (HTTPException 500 (str e))
          end) as Hrun.
  { rewrite (get_weather_with_key _ _ _ Hkey). cbv zeta.
    rewrite Hup, Hstatus. cbn [Z.eqb Pos.eqb].
    unfold processed, response_json. rewrite Hjson. cbn [rbind].
    rewrite (weather_data_of_fields _ _ _ _ _ _ _ _ Hfields).
    destruct (WeatherResponse_init _ _ _ _ _ _ _ _ _ _) as [e | wd] eqn:Hinit;
      [| reflexivity].
    cbn [fst].
    rewrite (reraised_other _
               (WeatherResponse_init_raises _ _ _ _ _ _ _ _ Hinit)).
    reflexivity. }
  split; [exact Hrun |]. split.
  - intros Htyped name temp hum speed icon country Hvalues.
    rewrite Hrun, (WeatherResponse_init_typed _ _ _ _ _ _ _ _ _ _ _ _ _
                     Htyped Hvalues).
    reflexivity.
  - intros Htitle Hascii. rewrite (Htitle descr Hascii).
    split; [apply title_from_in_title_case |].
    split; [apply title_from_same_letters |].
    intros t Hcase Hlow. apply title_from_unique; assumption.
Qed.

(** C2, as the code has it: when the provider answers with a status other
    than 200, the 404 raised on line 75 is caught by the last [except]
    clause, and the caller gets status 500 with the rendering of that
    exception as detail, not the 404 "City not found". *)
Theorem non_200_is_answered_500
    (city : string) (w : world) (key : string) (resp : response) :
  truthy (environ w API_KEY) = Some key ->
  upstream city key w = inr resp ->
  status_code resp <> 200%Z ->
  fst (handler city w) =
    inl (HTTPException 500 (str (HTTPException 404 "City not found"))) /\
  fst (handler city w) <> inl (HTTPException 404 "City not found").
Proof.
  intros Hkey Hup Hstatus.
  assert (fst (handler city w) =
          inl (HTTPException 500 (str (HTTPException 404 "City not found"))))
    as Hrun.
  { rewrite (get_weather_with_key _ _ _ Hkey). cbv zeta.
    rewrite Hup. apply Z.eqb_neq in Hstatus. rewrite Hstatus. reflexivity. }
  split; [exact Hrun |].
  rewrite Hrun. intros Heq. inversion Heq.
Qed.

(** C3: when the API key is not configured, the request ends with status
    500 and a message that does not depend on the request, and the log of
    outbound calls is what it was. *)
Theorem missing_key_is_500_without_call (city : string) (w : world) :
  truthy (environ w API_KEY) = None ->
  fst (handler city w) =
    inl (HTTPException 500 (str (HTTPException 500 "API key not configured"))) /\
  outbound (snd (handler city w)) = outbound w.
Proof.
  intros Hkey. rewrite (get_weather_without_key _ _ Hkey).
  split; reflexivity.
Qed.

(** C4, as the code has it: a request whose outbound call fails at the
    transport level, and more generally one whose lines 71 and 72 raise
    any [httpx.RequestError], ends with status 503 and the message
    "Weather service unavailable"; and a request that ends with status 503
    is one where these lines raised an [httpx.RequestError], of whatever
    subclass. *)
Theorem transport_failure_iff_503 (city : string) (w : world) :
  (transport_level_failure city w ->
   fst (handler city w) =
     inl (HTTPException 503 "Weather service unavailable")) /\
  (transport_failure city w ->
   fst (handler city w) =
     inl (HTTPException 503 "Weather service unavailable")) /\
  (forall e, fst (handler city w) = inl e -> status_of e = Some 503%Z ->
             transport_failure city w).
Proof.
  assert (transport_failure city w ->
          fst (handler city w) =
            inl (HTTPException 503 "Weather service unavailable")) as Hany.
  { intros (key & kind & message & Hkey & Hup).
    rewrite (get_weather_with_key _ _ _ Hkey). cbv zeta.
    rewrite Hup. reflexivity. }
  split; [| split; [exact Hany |]].
  - intros (key & kind & message & Hkey & Hup & _).
    apply Hany. exists key, kind, message. split; assumption.
  - intros e Hrun Hstatus.
    destruct (truthy (environ w API_KEY)) as [key |] eqn:Hkey.
    + rewrite (get_weather_with_key _ _ _ Hkey) in Hrun.
      cbv zeta in Hrun.
      destruct (upstream city key w) as [cause | resp] eqn:Hup.
      * destruct cause; cbn in Hrun; inversion Hrun; subst e;
          try discriminate Hstatus.
        exists key, kind, message. split; [exact Hkey | exact Hup].
      * destruct (status_code resp =? 200)%Z.
        -- destruct (process resp) as [cause | wd] eqn:Hp;
             cbn in Hrun; [| discriminate Hrun].
           rewrite (reraised_other _ (processed_raises _ _ Hp)) in Hrun.
           inversion Hrun; subst e. discriminate Hstatus.
        -- cbn in Hrun. inversion Hrun; subst e. discriminate Hstatus.
    + rewrite (get_weather_without_key _ _ Hkey) in Hrun.
      cbn in Hrun. inversion Hrun; subst e. discriminate Hstatus.
Qed.

Lemma serve_metrics (cities : list string) (w : world) :
  let run :=
    serve str validate_str validate_float validate_int title cities w in
  List.length (fst run) = List.length cities /\
  weather_requests (snd run) =
    (weather_requests w + N.of_nat (List.length cities))%N /\
  List.length (request_duration (snd run)) =
    (List.length (request_duration w) + successes (fst run))%nat.
Proof.
  revert w. induction cities as [| c rest IH]; intros w.
  - cbn. repeat split; lia.
  - cbn [serve].
    pose proof (get_weather_metrics c w) as [Hcount Hhist].
    destruct (handler c w) as [r w1]. cbn [fst snd] in Hcount, Hhist.
    specialize (IH w1). cbv zeta in IH.
    destruct (serve str validate_str validate_float validate_int title
                    rest w1) as [rs w2].
    cbn [fst snd] in IH |- *. destruct IH as (Hlen & Hc & Hh).
    unfold successes in *. cbn [filter List.length].
    repeat split.
    + lia.
    + rewrite Hc, Hcount. lia.
    + rewrite Hh, Hhist. destruct (is_ok r); cbn [List.length]; lia.
Qed.

Lemma successes_failures {A : Type} (rs : list (result A)) :
  (successes rs + failures rs = List.length rs)%nat.
Proof.
  unfold successes, failures.
  induction rs as [| r rs IH]; cbn; [reflexivity |].
  destruct (is_ok r); cbn; lia.
Qed.

(** C5: after a sequence of requests of which N ended with a response and
    M with an error, the counter has grown by N + M and the histogram has
    received N observations. *)
Theorem metrics_after_requests (cities : list string) (w : world) :
  let run :=
    serve str validate_str validate_float validate_int title cities w in
  let n := successes (fst run) in
  let m := failures (fst run) in
  weather_requests (snd run) = (weather_requests w + N.of_nat (n + m))%N /\
  List.length (request_duration (snd run)) =
    (List.length (request_duration w) + n)%nat.
Proof.
  cbv zeta. destruct (serve_metrics cities w) as (Hlen & Hc & Hh).
  rewrite successes_failures, Hlen. split; assumption.
Qed.

(** C6: [GET /health] and [GET /] return their fixed payloads in every
    state of the process, whatever the configuration and the provider, and
    leave that state, the log of outbound calls included, as it was. *)
Theorem static_endpoints (w : world) :
  health_check w =
    (inr [("status", "healthy"); ("service", "weather-api")], w) /\
  root w = (inr [("message", "Weather Dashboard API is running! 🌤️")], w).
Proof. split; reflexivity. Qed.

(** C7, as the code has it: with a key configured, a request for which
    [httpx.AsyncClient()] can be constructed calls [client.get] once: a
    GET to [{base_url}/weather] with the parameters [q], the city as
    received, [appid], the key, and [units], "metric".  When the client
    cannot be constructed no call is made, and the exception it raised is
    handled as any other raised in the [try] block. *)
Theorem one_outbound_get (city : string) (w : world) (key : string) :
  environ w API_KEY = Some key ->
  key <> "" ->
  ((forall e, exchanged city key w <> NoClient e) ->
   outbound (snd (handler city w)) =
     outbound w ++
     [{| method := "GET";
         url := format_value (environ w BASE_URL) ++ "/weather";
         params := [("q", city); ("appid", key); ("units", "metric")] |}]) /\
  (forall e, exchanged city key w = NoClient e ->
   outbound (snd (handler city w)) = outbound w /\
   fst (handler city w) = inl (reraised str e)).
Proof.
  intros Henv Hne.
  assert (truthy (environ w API_KEY) = Some key) as Hkey.
  { rewrite Henv. destruct key; [contradiction | reflexivity]. }
  rewrite (get_weather_with_key _ _ _ Hkey). cbv zeta.
  unfold upstream, exchange_done. split.
  - intros Hclient.
    destruct (exchanged city key w) as [e | r]; [destruct (Hclient e eq_refl) |].
    cbn [outcome]. destruct r as [e | resp]; [reflexivity |].
    destruct (status_code resp =? 200)%Z; [| reflexivity].
    destruct (process resp); reflexivity.
  - intros e ->. split; reflexivity.
Qed.

(** C8: when the provider answers 200 and reading the body raises [e] (the
    body is not JSON, a field is missing, a value is rejected by the
    model), the request ends with status 500 and detail [str(e)]. *)
Theorem processing_failure_is_500
    (city : string) (w : world) (key : string) (resp : response) (e : exn) :
  truthy (environ w API_KEY) = Some key ->
  upstream city key w = inr resp ->
  status_code resp = 200%Z ->
  process resp = inl e ->
  fst (handler city w) = inl (HTTPException 500 (str e)).
Proof.
  intros Hkey Hup Hstatus Hp.
  rewrite (get_weather_with_key _ _ _ Hkey). cbv zeta.
  rewrite Hup, Hstatus. cbn [Z.eqb Pos.eqb]. rewrite Hp. cbn [fst].
  rewrite (reraised_other _ (processed_raises _ _ Hp)). reflexivity.
Qed.

(** Every error that leaves the handler is one of the two the [except]
    clauses raise. *)
Lemma get_weather_error_shape (city : string) (w : world) (e : exn) :
  fst (handler city w) = inl e ->
  (e = HTTPException 503 "Weather service unavailable" /\
   transport_failure city w) \/
  (exists cause, is_RequestError cause = false /\
                 e = HTTPException 500 (str cause)).
Proof.
  intros Hrun.
  assert (forall cause, is_RequestError cause = false ->
            exists cause', is_RequestError cause' = false /\
                           reraised str cause = HTTPException 500 (str cause'))
    as Hother.
  { intros cause Hreq. exists cause. split; [exact Hreq |].
    apply reraised_other. exact Hreq. }
  destruct (truthy (environ w API_KEY)) as [key |] eqn:Hkey.
  - rewrite (get_weather_with_key _ _ _ Hkey) in Hrun.
    cbv zeta in Hrun.
    destruct (upstream city key w) as [cause | resp] eqn:Hup.
    + cbn [fst] in Hrun. injection Hrun as <-.
      destruct (is_RequestError cause) eqn:Hreq.
      * left. destruct cause; try discriminate Hreq.
        split; [reflexivity |]. exists key, kind, message. split; assumption.
      * right. apply Hother. exact Hreq.
    + right. destruct (status_code resp =? 200)%Z.
      * destruct (process resp) as [cause | wd] eqn:Hp;
          cbn [fst] in Hrun; [| discriminate Hrun].
        injection Hrun as <-. apply Hother.
        exact (processed_raises _ _ Hp).
      * cbn [fst] in Hrun. injection Hrun as <-.
        apply Hother. reflexivity.
  - right. rewrite (get_weather_without_key _ _ Hkey) in Hrun.
    cbn [fst] in Hrun. injection Hrun as <-.
    exists (HTTPException 500 "API key not configured").
    split; reflexivity.
Qed.

(** C10: a request that fails otherwise than by an httpx error of its
    outbound call ends with status 500 and, as detail, the rendering of
    the exception that was raised.  The two [HTTPException]s raised inside
    the [try] block are among them: the one for the missing key and the 404
    for a provider status other than 200.  So no request ends with status
    404, and where [str] does not render these two exceptions as their bare
    detail, "API key not configured" and "City not found" do not reach the
    caller as written. *)
Theorem failures_are_answered_500 (city : string) (w : world) :
  str (HTTPException 500 "API key not configured") <> "API key not configured" ->
  str (HTTPException 404 "City not found") <> "City not found" ->
  (forall e, fst (handler city w) = inl e -> ~ transport_failure city w ->
     exists cause, is_RequestError cause = false /\
                   e = HTTPException 500 (str cause)) /\
  (truthy (environ w API_KEY) = None ->
     fst (handler city w) =
       inl (HTTPException 500
              (str (HTTPException 500 "API key not configured"))) /\
     fst (handler city w) <>
       inl (HTTPException 500 "API key not configured")) /\
  (forall key resp,
     truthy (environ w API_KEY) = Some key ->
     upstream city key w = inr resp ->
     status_code resp <> 200%Z ->
     fst (handler city w) =
       inl (HTTPException 500 (str (HTTPException 404 "City not found"))) /\
     forall c, fst (handler city w) <>
               inl (HTTPException c "City not found")) /\
  (forall e, fst (handler city w) = inl e -> status_of e <> Some 404%Z).
Proof.
  intros Hstr500 Hstr404. split; [| split; [| split]].
  - intros e Hrun Hnot.
    destruct (get_weather_error_shape city w e Hrun) as [[_ Ht] | Hc];
      [contradiction | exact Hc].
  - intros Hkey. rewrite (get_weather_without_key _ _ Hkey).
    cbn [fst]. split; [reflexivity |].
    intros Heq. injection Heq as Heq. contradiction.
  - intros key resp Hkey Hup Hstatus.
    rewrite (get_weather_with_key _ _ _ Hkey). cbv zeta.
    rewrite Hup. apply Z.eqb_neq in Hstatus. rewrite Hstatus. cbn.
    split; [reflexivity |].
    intros c Heq. injection Heq as _ Heq. contradiction.
  - intros e Hrun Hst.
    destruct (get_weather_error_shape city w e Hrun)
      as [[-> _] | (cause & _ & ->)]; discriminate Hst.
Qed.

(** ** Requests in flight together *)

(** A request served alone is its first segment, the provider's answer,
    and its second segment. *)
Lemma get_weather_segments (city : string) (w : world) :
  handler city w =
    match before_await str city w with
    | (inl e, w1) => (inl e, w1)
    | (inr (start_time, req), w1) =>
        after_await str validate_str validate_float validate_int title
          start_time
          (outcome (provider w1 (List.length (outbound w1)) req))
          (sent req w1)
    end.
Proof.
  unfold get_weather, before_await, after_await, bind, try_except, os_getenv,
    on_exception, raise, ret, lift, client_get, AsyncClient.
  cbn.
  destruct (truthy (environ w "OPENWEATHER_API_KEY")) as [key |]; cbn;
    [| reflexivity].
  destruct (provider w (List.length (outbound w)) _) as [e | r] eqn:Hp; cbn;
    [reflexivity | rewrite Hp; cbn].
  destruct r as [e | resp]; cbn; [reflexivity |].
  destruct (status_code resp =? 200)%Z; cbn; [| reflexivity].
  destruct (response_json resp) as [e | data]; cbn; [reflexivity |].
  destruct (weather_data_of _ _ _ _ data); reflexivity.
Qed.

Lemma start_effect (city : string) (w w' : world) (t : task) :
  begin city w = (t, w') ->
  weather_requests w' = (weather_requests w + 1)%N /\
  request_duration w' = request_duration w /\
  has_started t = true /\ has_succeeded t = false.
Proof.
  unfold start, before_await, bind, try_except, os_getenv, on_exception,
    raise, ret, AsyncClient.
  cbn.
  destruct (truthy (environ w "OPENWEATHER_API_KEY")) as [key |]; cbn;
    [destruct (provider w (List.length (outbound w)) _); cbn |];
    intros Heq; injection Heq as <- <-; repeat split.
Qed.

Lemma finish_effect (start_time : float) (answer : result response)
    (w w' : world) (t : task) :
  complete start_time answer w = (t, w') ->
  weather_requests w' = weather_requests w /\
  has_started t = true /\ has_finished t = true /\
  List.length (request_duration w') =
    (List.length (request_duration w)
     + if has_succeeded t then 1 else 0)%nat.
Proof.
  unfold finish, after_await, bind, try_except, on_exception, raise, ret, lift.
  destruct answer as [e | resp]; cbn.
  - intros Heq; injection Heq as <- <-. repeat split. cbn. lia.
  - destruct (status_code resp =? 200)%Z; cbn.
    + destruct (response_json resp) as [e | data]; cbn.
      * intros Heq; injection Heq as <- <-. repeat split. cbn. lia.
      * destruct (weather_data_of _ _ _ _ data) as [e | wd]; cbn;
          intros Heq; injection Heq as <- <-; repeat split; cbn; lia.
    + intros Heq; injection Heq as <- <-. repeat split. cbn. lia.
Qed.

Lemma count_middle (f : task -> bool) (pre post : list task) (t : task) :
  count f (pre ++ t :: post) =
    (count f pre + (if f t then 1 else 0) + count f post)%nat.
Proof.
  unfold count. rewrite filter_app, length_app. cbn [filter].
  destruct (f t); cbn [List.length]; lia.
Qed.

(** What one turn of the event loop does to the metrics and the pool. *)
Lemma step_balance (w w' : world) (pool pool' : list task) :
  turn (w, pool) (w', pool') ->
  List.length pool' = List.length pool /\
  (weather_requests w' + N.of_nat (count has_started pool))%N =
    (weather_requests w + N.of_nat (count has_started pool'))%N /\
  (List.length (request_duration w') + count has_succeeded pool)%nat =
    (List.length (request_duration w) + count has_succeeded pool')%nat.
Proof.
  intros Hstep. inversion Hstep as [? ? pre post c t Hrun | ? ? pre post st req answer t Hrun];
    subst; rewrite !length_app, !count_middle; cbn [List.length].
  - destruct (start_effect _ _ _ _ Hrun) as (Hc & Hh & Hs & Hok).
    rewrite Hc, Hh, Hs, Hok. cbn [has_started has_succeeded].
    repeat split; lia.
  - destruct (finish_effect _ _ _ _ _ Hrun) as (Hc & Hs & _ & Hh).
    rewrite Hc, Hs, Hh. cbn [has_started has_succeeded].
    repeat split; lia.
Qed.

Lemma steps_balance (c c' : config) :
  turns c c' ->
  List.length (snd c') = List.length (snd c) /\
  (weather_requests (fst c') + N.of_nat (count has_started (snd c)))%N =
    (weather_requests (fst c) + N.of_nat (count has_started (snd c')))%N /\
  (List.length (request_duration (fst c')) + count has_succeeded (snd c))%nat =
    (List.length (request_duration (fst c)) + count has_succeeded (snd c'))%nat.
Proof.
  induction 1 as [c | [w1 p1] [w2 p2] [w3 p3] Hstep _ IH].
  - repeat split; lia.
  - apply step_balance in Hstep. cbn [fst snd] in *.
    destruct Hstep as (Hl & Hc & Hh), IH as (Hl' & Hc' & Hh').
    repeat split; lia.
Qed.

Lemma count_accepted (f : task -> bool) (cities : list string) :
  (forall c, f (Accepted c) = false) ->
  count f (map Accepted cities) = 0%nat.
Proof.
  intros Hf. unfold count.
  induction cities as [| c rest IH]; cbn; [reflexivity |].
  rewrite Hf. exact IH.
Qed.

Lemma count_all (f g : task -> bool) (pool : list task) :
  (forall t, f t = true -> g t = true) ->
  forallb f pool = true ->
  count g pool = List.length pool.
Proof.
  intros Hfg. unfold count.
  induction pool as [| t rest IH]; cbn; [reflexivity |].
  intros Hall. apply andb_true_iff in Hall as [Ht Hrest].
  rewrite (Hfg t Ht). cbn. rewrite (IH Hrest). reflexivity.
Qed.

(** C9: requests in flight together, their segments run in any order.  At
    every moment the counter has grown by the number of requests whose
    handler has started and the histogram by the number of requests that
    ended with a response; so once all requests have finished, the counter
    has grown by the number of requests issued. *)
Theorem in_flight_requests_lose_no_update
    (cities : list string) (w0 w : world) (pool : list task) :
  turns (w0, map Accepted cities) (w, pool) ->
  weather_requests w =
    (weather_requests w0 + N.of_nat (count has_started pool))%N /\
  List.length (request_duration w) =
    (List.length (request_duration w0) + count has_succeeded pool)%nat /\
  (forallb has_finished pool = true ->
   weather_requests w =
     (weather_requests w0 + N.of_nat (List.length cities))%N).
Proof.
  intros Hrun. apply steps_balance in Hrun. cbn [fst snd] in Hrun.
  destruct Hrun as (Hlen & Hc & Hh).
  rewrite !count_accepted in * by reflexivity.
  rewrite length_map in Hlen.
  assert (weather_requests w =
          (weather_requests w0 + N.of_nat (count has_started pool))%N) as Hc'
    by lia.
  repeat split; [exact Hc' | lia |].
  intros Hall. rewrite Hc'.
  rewrite (count_all has_finished has_started pool), Hlen; [reflexivity | | exact Hall].
  intros [c | st req | r]; cbn; congruence.
Qed.

Lemma steps_trans (c1 c2 c3 : config) :
  turns c1 c2 -> turns c2 c3 -> turns c1 c3.
Proof.
  induction 1 as [c | a b c Hstep _ IH]; intros Hrest; [exact Hrest |].
  apply (steps_step _ _ _ _ _ a b); [exact Hstep | apply IH; exact Hrest].
Qed.

Lemma step_under (d : task) (w w' : world) (pool pool' : list task) :
  turn (w, pool) (w', pool') -> turn (w, d :: pool) (w', d :: pool').
Proof.
  intros Hstep.
  inversion Hstep as [? ? pre post c t Hrun | ? ? pre post st req answer t Hrun];
    subst.
  - apply (step_start _ _ _ _ _ w w' (d :: pre) post c t Hrun).
  - apply (step_finish _ _ _ _ _ w w' (d :: pre) post st req answer t Hrun).
Qed.

Lemma steps_under (d : task) (c c' : config) :
  turns c c' -> turns (fst c, d :: snd c) (fst c', d :: snd c').
Proof.
  induction 1 as [c | [w1 p1] [w2 p2] [w3 p3] Hstep _ IH].
  - apply steps_refl.
  - apply (steps_step _ _ _ _ _ _ (w2, d :: p2)); [| exact IH].
    apply step_under. exact Hstep.
Qed.

(** Each request in flight can be run to its end. *)
Lemma task_can_finish (t : task) (w : world) (rest : list task) :
  exists w' r, turns (w, t :: rest) (w', Finished r :: rest).
Proof.
  assert (forall st req w1, exists w' r,
            turns (w1, Awaiting st req :: rest) (w', Finished r :: rest))
    as Hawait.
  { intros st req w1.
    destruct (after_await str validate_str validate_float validate_int title st
                (inl (RequestError ConnectError "")) w1) as [r w2] eqn:Hrun.
    exists w2, r.
    apply (steps_step _ _ _ _ _ _ (w2, Finished r :: rest));
      [| apply steps_refl].
    apply (step_finish _ _ _ _ _ w1 w2 [] rest st req
             (inl (RequestError ConnectError ""))).
    unfold finish. rewrite Hrun. reflexivity. }
  destruct t as [c | st req | r].
  - destruct (begin c w) as [t1 w1] eqn:Hrun.
    pose proof (step_start str validate_str validate_float validate_int title
                  w w1 [] rest c t1 Hrun) as Hfirst.
    destruct (start_effect _ _ _ _ Hrun) as (_ & _ & Hs & _).
    destruct t1 as [c' | st req | r]; [discriminate Hs | |].
    + destruct (Hawait st req w1) as (w2 & r & Hnext).
      exists w2, r.
      apply (steps_step _ _ _ _ _ _ (w1, Awaiting st req :: rest));
        [exact Hfirst | exact Hnext].
    + exists w1, r.
      apply (steps_step _ _ _ _ _ _ (w1, Finished r :: rest));
        [exact Hfirst | apply steps_refl].
  - apply Hawait.
  - exists w, r. apply steps_refl.
Qed.

(** Whatever the state, the requests in flight can all be run to their
    end. *)
Lemma pool_can_finish (pool : list task) (w : world) :
  exists w' pool',
    turns (w, pool) (w', pool') /\ forallb has_finished pool' = true.
Proof.
  revert w. induction pool as [| t rest IH]; intros w.
  - exists w, []. split; [apply steps_refl | reflexivity].
  - destruct (task_can_finish t w rest) as (w1 & r & Hhead).
    destruct (IH w1) as (w2 & rest' & Htail & Hall).
    exists w2, (Finished r :: rest'). split.
    + apply (steps_trans _ _ _ Hhead).
      apply (steps_under (Finished r) (w1, rest) (w2, rest')). exact Htail.
    + cbn. exact Hall.
Qed.

End Properties.

(** * The theorems at concrete requests *)

(** The validators of [Lib] keep the value of a JSON string or number. *)
Lemma Lib_validators_keep_values :
  validators_keep_values Lib.validate_str Lib.validate_float Lib.validate_int.
Proof.
  split; [reflexivity | split].
  - intros [| | n | x | | |] y; cbn; intros H; try discriminate H.
    + destruct (float_to_int (float_of_int n)) as [n' |]; [| discriminate H].
      destruct (n' =? n)%Z; [exact H | discriminate H].
    + exact H.
  - intros [| | n | x | | |] m; cbn; intros H; try discriminate H; exact H.
Defined.

Lemma get_weather_maps_provider_fields_witness :
  fst (Lib.get_weather "oslo"
         (Lib.configured (inr (mkResponse 200 (Some Lib.oslo))))) =
    inr (mkWeatherResponse "Oslo" (-3)%float "Light Snow" 81 7%float
                           "13d" "NO") /\
  Str.in_title_case "Light Snow" = true /\
  Str.lower "Light Snow" = Str.lower "LIGHT snow".
Proof.
  destruct (get_weather_maps_provider_fields
              Lib.str Lib.validate_str Lib.validate_float Lib.validate_int
              Lib.title
              "oslo" (Lib.configured (inr (mkResponse 200 (Some Lib.oslo))))
              "k3y" (mkResponse 200 (Some Lib.oslo)) Lib.oslo
              (PStr "Oslo") (PInt (-3)) "LIGHT snow" (PFloat 81%float)
              (PInt 7) (PStr "13d") (PStr "NO")
              eq_refl eq_refl eq_refl eq_refl)
    as (_ & Htyped & Htitle).
  - unfold has_weather_fields. split; [reflexivity |].
    split; [eexists; repeat split |].
    split; [do 2 eexists; repeat split |].
    split; eexists; repeat split.
  - split.
    + apply (Htyped Lib_validators_keep_values
               "Oslo" (-3)%float 81%Z 7%float "13d" "NO").
      repeat split.
    + destruct (Htitle (fun s _ => eq_refl) eq_refl) as (Hcase & Hlow & _).
      split; [exact Hcase | exact Hlow].
Defined.

Lemma non_200_is_answered_500_witness :
  fst (Lib.get_weather "Atlantis"
         (Lib.configured (inr (mkResponse 404 None)))) =
    inl (HTTPException 500 "404: City not found") /\
  fst (Lib.get_weather "Atlantis"
         (Lib.configured (inr (mkResponse 404 None)))) <>
    inl (HTTPException 404 "City not found").
Proof.
  apply (non_200_is_answered_500
           Lib.str Lib.validate_str Lib.validate_float Lib.validate_int
           Lib.title
           "Atlantis" (Lib.configured (inr (mkResponse 404 None)))
           "k3y" (mkResponse 404 None)).
  - reflexivity.
  - reflexivity.
  - cbn. lia.
Defined.

Lemma missing_key_is_500_without_call_witness :
  fst (Lib.get_weather "London"
         (Lib.world_of None None (inr (mkResponse 200 (Some Lib.london))))) =
    inl (HTTPException 500 "500: API key not configured") /\
  outbound (snd (Lib.get_weather "London"
         (Lib.world_of None None (inr (mkResponse 200 (Some Lib.london)))))) =
    [].
Proof.
  apply (missing_key_is_500_without_call
           Lib.str Lib.validate_str Lib.validate_float Lib.validate_int
           Lib.title
           "London"
           (Lib.world_of None None (inr (mkResponse 200 (Some Lib.london))))).
  reflexivity.
Defined.

Lemma transport_failure_iff_503_witness :
  fst (Lib.get_weather "London"
         (Lib.configured
            (inl (RequestError ConnectError "All connection attempts failed")))) =
    inl (HTTPException 503 "Weather service unavailable").
Proof.
  apply (proj1 (transport_failure_iff_503
                  Lib.str Lib.validate_str Lib.validate_float Lib.validate_int
                  Lib.title "London"
                  (Lib.configured
                     (inl (RequestError ConnectError
                             "All connection attempts failed"))))).
  exists "k3y", ConnectError, "All connection attempts failed".
  repeat split.
Defined.

(** C4 as the claim states it fails where no base URL is configured: the
    URL of the call is [None/weather], httpx raises [UnsupportedProtocol]
    for it, an [httpx.RequestError], and the request ends with status 503
    although nothing failed at the transport level. *)
Lemma unset_base_url_is_answered_503 :
  fst (Lib.get_weather "London" Lib.unset_base_url) =
    inl (HTTPException 503 "Weather service unavailable") /\
  ~ transport_level_failure "London" Lib.unset_base_url.
Proof.
  split; [reflexivity |].
  intros (key & kind & message & Hkey & Hup & Hlevel).
  cbn in Hup. injection Hup as <- _. discriminate Hlevel.
Qed.

Lemma one_outbound_get_witness :
  outbound (snd (Lib.get_weather "New York"
                   (Lib.configured (inr (mkResponse 200 (Some Lib.london)))))) =
    [] ++
    [mkRequest "GET" "https://api.openweathermap.org/data/2.5/weather"
               [("q", "New York"); ("appid", "k3y"); ("units", "metric")]] /\
  outbound (snd (Lib.get_weather "New York" Lib.unset_base_url)) =
    [] ++
    [mkRequest "GET" "None/weather"
               [("q", "New York"); ("appid", "k3y"); ("units", "metric")]].
Proof.
  split.
  - apply (proj1 (one_outbound_get
             Lib.str Lib.validate_str Lib.validate_float Lib.validate_int
             Lib.title "New York"
             (Lib.configured (inr (mkResponse 200 (Some Lib.london)))) "k3y"
             eq_refl ltac:(discriminate))).
    intros e. discriminate.
  - apply (proj1 (one_outbound_get
             Lib.str Lib.validate_str Lib.validate_float Lib.validate_int
             Lib.title "New York" Lib.unset_base_url "k3y"
             eq_refl ltac:(discriminate))).
    intros e. discriminate.
Defined.

(** C7 as the claim states it fails where [httpx.AsyncClient()] raises: a
    key is configured, and the request makes no call. *)
Lemma bad_proxy_makes_no_call :
  environ Lib.bad_proxy API_KEY = Some "k3y" /\
  outbound (snd (Lib.get_weather "London" Lib.bad_proxy)) = [] /\
  outbound (snd (Lib.get_weather "London" Lib.bad_proxy)) <>
    outbound Lib.bad_proxy ++
    [mkRequest "GET" "https://api.openweathermap.org/data/2.5/weather"
               [("q", "London"); ("appid", "k3y"); ("units", "metric")]].
Proof.
  split; [reflexivity |]. split; [reflexivity |]. discriminate.
Qed.

Lemma processing_failure_is_500_witness :
  fst (Lib.get_weather "London"
         (Lib.configured
            (inr (mkResponse 200 (Some (PDict [("cod", PInt 200)])))))) =
    inl (HTTPException 500 "'name'").
Proof.
  apply (processing_failure_is_500
           Lib.str Lib.validate_str Lib.validate_float Lib.validate_int
           Lib.title
           "London"
           (Lib.configured
              (inr (mkResponse 200 (Some (PDict [("cod", PInt 200)])))))
           "k3y" (mkResponse 200 (Some (PDict [("cod", PInt 200)])))
           (KeyError (IKey "name"))).
  - reflexivity.
  - reflexivity.
  - reflexivity.
  - reflexivity.
Defined.

Lemma failures_are_answered_500_witness :
  fst (Lib.get_weather "Atlantis"
         (Lib.configured (inr (mkResponse 401 None)))) =
    inl (HTTPException 500 "404: City not found") /\
  forall c,
    fst (Lib.get_weather "Atlantis"
           (Lib.configured (inr (mkResponse 401 None)))) <>
      inl (HTTPException c "City not found").
Proof.
  refine (proj1 (proj2 (proj2 (failures_are_answered_500
           Lib.str Lib.validate_str Lib.validate_float Lib.validate_int
           Lib.title
           "Atlantis" (Lib.configured (inr (mkResponse 401 None)))
           _ _)))
           "k3y" (mkResponse 401 None) _ _ _).
  - vm_compute. discriminate.
  - vm_compute. discriminate.
  - reflexivity.
  - reflexivity.
  - cbn. lia.
Defined.

Lemma in_flight_requests_lose_no_update_witness :
  weather_requests Lib.w4 = 2%N /\
  List.length (request_duration Lib.w4) = 1%nat.
Proof.
  assert (steps Lib.str Lib.validate_str Lib.validate_float Lib.validate_int
                Lib.title
            (Lib.w0, map Accepted ["London"; "Paris"])
            (Lib.w4, [Finished (inl (HTTPException 500 "404: City not found"));
                      Finished (inr Lib.paris_weather)])) as Hrun.
  { apply (steps_step _ _ _ _ _ _
             (Lib.w1, [Awaiting 100%float Lib.london_request;
                       Accepted "Paris"])).
    { apply (step_start _ _ _ _ _ Lib.w0 Lib.w1 [] [Accepted "Paris"] "London").
      reflexivity. }
    apply (steps_step _ _ _ _ _ _
             (Lib.w2, [Awaiting 100%float Lib.london_request;
                       Awaiting 100.5%float Lib.paris_request])).
    { apply (step_start _ _ _ _ _ Lib.w1 Lib.w2
               [Awaiting 100%float Lib.london_request] [] "Paris").
      reflexivity. }
    apply (steps_step _ _ _ _ _ _
             (Lib.w3, [Awaiting 100%float Lib.london_request;
                       Finished (inr Lib.paris_weather)])).
    { apply (step_finish _ _ _ _ _ Lib.w2 Lib.w3
               [Awaiting 100%float Lib.london_request] []
               100.5%float Lib.paris_request
               (inr (mkResponse 200 (Some Lib.paris)))).
      reflexivity. }
    apply (steps_step _ _ _ _ _ _
             (Lib.w4, [Finished (inl (HTTPException 500 "404: City not found"));
                       Finished (inr Lib.paris_weather)])).
    { apply (step_finish _ _ _ _ _ Lib.w3 Lib.w4
               [] [Finished (inr Lib.paris_weather)]
               100%float Lib.london_request
               (inr (mkResponse 404 None))).
      reflexivity. }
    apply steps_refl. }
  destruct (in_flight_requests_lose_no_update
              Lib.str Lib.validate_str Lib.validate_float Lib.validate_int
              Lib.title
              ["London"; "Paris"] Lib.w0 Lib.w4 _ Hrun) as (_ & Hh & Hc).
  split; [exact (Hc eq_refl) | exact Hh].
Defined.

(** * Further properties of the handlers *)

Section Further.

Variable str : exn -> string.
Variable validate_str : pyval -> option string.
Variable validate_float : pyval -> option float.
Variable validate_int : pyval -> option Z.
Variable title : string -> string.

Local Abbreviation handler :=
  (get_weather str validate_str validate_float validate_int title).
Local Abbreviation build :=
  (weather_data_of validate_str validate_float validate_int title).
Local Abbreviation typed :=
  (validators_keep_values validate_str validate_float validate_int).
Local Abbreviation process :=
  (processed validate_str validate_float validate_int title).
Local Abbreviation run_all :=
  (serve str validate_str validate_float validate_int title).
Local Abbreviation with_key :=
  (get_weather_with_key str validate_str validate_float validate_int title).
Local Abbreviation without_key :=
  (get_weather_without_key str validate_str validate_float validate_int title).

(** ** One request *)

(** The state a request leaves, field by field. *)
Lemma get_weather_world (city : string) (w : world) :
  let run := handler city w in
  environ (snd run) = environ w /\
  clock (snd run) = clock w /\
  provider (snd run) = provider w /\
  outbound (snd run) =
    outbound w ++
    match truthy (environ w API_KEY) with
    | Some key =>
        match exchanged city key w with
        | NoClient _ => []
        | Called _ => [request_for city key w]
        end
    | None => []
    end /\
  ticks (snd run) = (ticks w + if is_ok (fst run) then 2 else 1)%nat /\
  request_duration (snd run) =
    (if is_ok (fst run)
     then [PrimFloat.sub (clock w (S (ticks w))) (clock w (ticks w))]
     else []) ++ request_duration w.
Proof.
  cbv zeta.
  destruct (truthy (environ w API_KEY)) as [key |] eqn:Hkey.
  - rewrite (with_key _ _ _ Hkey). cbv zeta.
    destruct (exchange_done_fields city key w) as (He & _ & Hd & Hc & Ht & Hp).
    assert (outbound (exchange_done city key w) =
            outbound w ++
            match exchanged city key w with
            | NoClient _ => []
            | Called _ => [request_for city key w]
            end) as Ho.
    { unfold exchange_done. destruct (exchanged city key w); cbn;
        [rewrite app_nil_r |]; reflexivity. }
    destruct (upstream city key w) as [e | resp];
      [cbn; rewrite Ht, Hd; repeat split; solve [assumption | lia] |].
    destruct (status_code resp =? 200)%Z;
      [| cbn; rewrite Ht, Hd; repeat split; solve [assumption | lia]].
    destruct (process resp) as [e | wd]; cbn; rewrite Ht, ?Hd, ?Hc;
      repeat split; solve [assumption | lia].
  - rewrite (without_key _ _ Hkey). cbn.
    rewrite app_nil_r. repeat split; lia.
Qed.

(** X1: the handler returns a response exactly when a key is configured,
    the provider answered 200 and the body could be read; the response is
    then what lines 77 to 87 make of the body. *)
Theorem get_weather_succeeds_iff
    (city : string) (w : world) (wd : WeatherResponse) :
  fst (handler city w) = inr wd <->
  exists key resp,
    truthy (environ w API_KEY) = Some key /\
    upstream city key w = inr resp /\
    status_code resp = 200%Z /\
    process resp = inr wd.
Proof.
  split.
  - intros Hrun.
    destruct (truthy (environ w API_KEY)) as [key |] eqn:Hkey.
    + rewrite (with_key _ _ _ Hkey) in Hrun. cbv zeta in Hrun.
      destruct (upstream city key w) as [e | resp] eqn:Hup;
        [discriminate Hrun |].
      destruct (status_code resp =? 200)%Z eqn:Hstatus;
        [| discriminate Hrun].
      destruct (process resp) as [e | wd'] eqn:Hp; [discriminate Hrun |].
      cbn [fst] in Hrun. injection Hrun as <-.
      exists key, resp. apply Z.eqb_eq in Hstatus. repeat split; assumption.
    + rewrite (without_key _ _ Hkey) in Hrun. discriminate Hrun.
  - intros (key & resp & Hkey & Hup & Hstatus & Hp).
    rewrite (with_key _ _ _ Hkey). cbv zeta.
    rewrite Hup, Hstatus, Hp. reflexivity.
Qed.

(** X2: a request that succeeds reads the clock twice and records one
    observation, the second reading minus the first, in front of the
    earlier ones; a request that fails reads the clock once and leaves the
    observations as they were. *)
Theorem get_weather_observes_elapsed (city : string) (w : world) :
  let run := handler city w in
  (is_ok (fst run) = true ->
   request_duration (snd run) =
     PrimFloat.sub (clock w (S (ticks w))) (clock w (ticks w))
       :: request_duration w /\
   ticks (snd run) = S (S (ticks w))) /\
  (is_ok (fst run) = false ->
   request_duration (snd run) = request_duration w /\
   ticks (snd run) = S (ticks w)).
Proof.
  cbv zeta.
  destruct (get_weather_world city w) as (_ & _ & _ & _ & Ht & Hd).
  split; intros Hok; rewrite Hok in Ht, Hd; split;
    solve [exact Hd | lia].
Qed.

(** X3: a request leaves the environment, the clock and the provider as
    they were, keeps every outbound call already logged, and adds at most
    one call to the log, whatever its outcome: nothing is retried. *)
Theorem get_weather_frame (city : string) (w : world) :
  let w' := snd (handler city w) in
  environ w' = environ w /\
  clock w' = clock w /\
  provider w' = provider w /\
  exists calls,
    outbound w' = outbound w ++ calls /\ (List.length calls <= 1)%nat.
Proof.
  cbv zeta.
  destruct (get_weather_world city w) as (He & Hc & Hp & Ho & _).
  repeat split; try assumption.
  eexists. split; [exact Ho |].
  destruct (truthy (environ w API_KEY)) as [key |]; [| cbn; lia].
  destruct (exchanged city key w); cbn; lia.
Qed.

(** X4: the response depends on the process state only through the two
    configuration values and the provider's answer, not on the metrics,
    the clock or the calls made before. *)
Theorem response_independent_of_metrics (city : string) (w w' : world) :
  environ w' API_KEY = environ w API_KEY ->
  environ w' BASE_URL = environ w BASE_URL ->
  (forall req,
     provider w' (List.length (outbound w')) req =
     provider w (List.length (outbound w)) req) ->
  fst (handler city w') = fst (handler city w).
Proof.
  intros Hk Hb Hprov.
  assert (forall key, upstream city key w' = upstream city key w) as Hup.
  { intros key. unfold upstream, exchanged, request_for.
    rewrite Hb, Hprov. reflexivity. }
  destruct (truthy (environ w API_KEY)) as [key |] eqn:Hkey.
  - assert (truthy (environ w' API_KEY) = Some key) as Hkey'
      by (rewrite Hk; exact Hkey).
    rewrite (with_key _ _ _ Hkey), (with_key _ _ _ Hkey'). cbv zeta.
    rewrite Hup.
    destruct (upstream city key w) as [e | resp]; [reflexivity |].
    destruct (status_code resp =? 200)%Z; [| reflexivity].
    destruct (process resp); reflexivity.
  - assert (truthy (environ w' API_KEY) = None) as Hkey'
      by (rewrite Hk; exact Hkey).
    rewrite (without_key _ _ Hkey), (without_key _ _ Hkey'). reflexivity.
Qed.

(** ** Sequences of requests *)

Lemma request_for_environ (c key : string) (w w' : world) :
  environ w' = environ w -> request_for c key w' = request_for c key w.
Proof. intros He. unfold request_for. rewrite He. reflexivity. Qed.

Lemma requests_for_environ (cities : list string) (key : string)
    (w w' : world) :
  environ w' = environ w -> requests_for cities key w' = requests_for cities key w.
Proof.
  intros He. unfold requests_for. apply map_ext. intros c.
  apply request_for_environ. exact He.
Qed.

(** X5: while no key is configured, every request of a sequence ends with
    the same status 500 and the provider is never called. *)
Theorem serve_without_key (cities : list string) (w : world) :
  truthy (environ w API_KEY) = None ->
  fst (run_all cities w) =
    map (fun _ =>
           inl (HTTPException 500
                  (str (HTTPException 500 "API key not configured"))))
        cities /\
  outbound (snd (run_all cities w)) = outbound w.
Proof.
  revert w. induction cities as [| c rest IH]; intros w Hkey.
  - split; reflexivity.
  - cbn [serve map].
    pose proof (get_weather_world c w) as Hw. cbv zeta in Hw.
    rewrite (without_key c w Hkey) in Hw |- *. cbn [fst snd] in Hw.
    destruct Hw as (He & _ & _ & Ho & _).
    rewrite Hkey, app_nil_r in Ho.
    assert (truthy (environ (entered w) API_KEY) = None) as Hkey'
      by (rewrite He; exact Hkey).
    destruct (IH (entered w) Hkey') as [Hrs Hout].
    destruct (run_all rest (entered w)) as [rs w2].
    cbn [fst snd] in Hrs, Hout |- *.
    split; [rewrite Hrs; reflexivity | rewrite Hout; exact Ho].
Qed.

(** X6: with a key configured and a client that can be constructed, a
    sequence of requests calls [client.get] once per request, in the order
    of the requests, each for its own city, whatever the outcomes. *)
Theorem serve_calls_in_order
    (cities : list string) (w : world) (key : string) :
  truthy (environ w API_KEY) = Some key ->
  client_available w ->
  outbound (snd (run_all cities w)) =
    outbound w ++ requests_for cities key w.
Proof.
  revert w. induction cities as [| c rest IH]; intros w Hkey Hclient.
  - cbn. rewrite app_nil_r. reflexivity.
  - cbn [serve].
    pose proof (get_weather_world c w) as Hw. cbv zeta in Hw.
    destruct (handler c w) as [r w1]. cbn [fst snd] in Hw.
    destruct Hw as (He & _ & Hp & Ho & _). rewrite Hkey in Ho.
    assert (truthy (environ w1 API_KEY) = Some key) as Hkey'
      by (rewrite He; exact Hkey).
    assert (client_available w1) as Hclient'
      by (unfold client_available; rewrite Hp; exact Hclient).
    specialize (IH w1 Hkey' Hclient').
    destruct (run_all rest w1) as [rs w2]. cbn [snd] in IH |- *.
    destruct (exchanged c key w) as [e | x] eqn:Hx;
      [destruct (Hclient _ _ _ Hx) |].
    rewrite IH, Ho, (requests_for_environ rest key w w1 He).
    unfold requests_for. cbn [map]. rewrite <- app_assoc. reflexivity.
Qed.

(** ** The routes *)

Variable generate_latest : world -> string.

Local Abbreviation route_to :=
  (dispatch str validate_str validate_float validate_int title generate_latest).
Local Abbreviation serve_any :=
  (serve_routes str validate_str validate_float validate_int title
                generate_latest).

Lemma dispatch_static (r : route) (w : world) :
  is_weather r = false ->
  snd (route_to r w) = w /\
  is_ok (fst (route_to r w)) = true /\
  is_model (fst (route_to r w)) = false.
Proof.
  destruct r; cbn; intros Hr; try discriminate Hr; repeat split.
Qed.

Lemma dispatch_weather (c : string) (w : world) :
  snd (route_to (GET_weather c) w) = snd (handler c w) /\
  is_model (fst (route_to (GET_weather c) w)) = is_ok (fst (handler c w)).
Proof.
  unfold dispatch, bind, ret.
  destruct (handler c w) as [[e | m] w1]; split; reflexivity.
Qed.

(** X7: over any sequence of requests to the four routes, the counter grows
    by the number of requests to [/weather/{city}] and the histogram by the
    number of those that returned a response; requests to [/], [/health]
    and [/metrics] always succeed and leave both metrics alone. *)
Theorem only_weather_routes_move_metrics (rs : list route) (w : world) :
  let run := serve_any rs w in
  weather_requests (snd run) =
    (weather_requests w + N.of_nat (List.length (filter is_weather rs)))%N /\
  List.length (request_duration (snd run)) =
    (List.length (request_duration w)
     + List.length (filter is_model (fst run)))%nat /\
  Forall2 (fun r a => is_weather r = false -> is_ok a = true) rs (fst run).
Proof.
  cbv zeta. revert w. induction rs as [| r rest IH]; intros w.
  - cbn. repeat split; try lia. constructor.
  - cbn [serve_routes].
    assert (weather_requests (snd (route_to r w)) =
              (weather_requests w + if is_weather r then 1 else 0)%N /\
            List.length (request_duration (snd (route_to r w))) =
              (List.length (request_duration w)
               + if is_model (fst (route_to r w)) then 1 else 0)%nat /\
            (is_weather r = false -> is_ok (fst (route_to r w)) = true))
      as (Hc & Hh & Hok).
    { destruct (is_weather r) eqn:Hr.
      - destruct r as [| c | |]; try discriminate Hr.
        destruct (dispatch_weather c w) as [Hw Hm].
        destruct (get_weather_metrics str validate_str validate_float
                    validate_int title c w) as [Hc Hh].
        rewrite Hw, Hm. repeat split; [exact Hc | exact Hh |].
        intros Hf. discriminate Hf.
      - destruct (dispatch_static r w Hr) as (Hw & Hok & Hm).
        rewrite Hw, Hm. repeat split; [lia | lia |].
        intros _. exact Hok. }
    destruct (route_to r w) as [a w1]. cbn [fst snd] in Hc, Hh, Hok.
    destruct (IH w1) as (Hc' & Hh' & Hall).
    destruct (serve_any rest w1) as [answers w2].
    cbn [fst snd] in Hc', Hh', Hall |- *. cbn [filter].
    repeat split.
    + rewrite Hc', Hc. destruct (is_weather r); cbn [List.length]; lia.
    + rewrite Hh', Hh. destruct (is_model a); cbn [List.length]; lia.
    + constructor; [exact Hok | exact Hall].
Qed.

(** ** Reading the provider's body *)

Lemma dict_get_other (pre post : list (string * pyval)) (k k' : string)
    (v : pyval) :
  k <> k' ->
  dict_get (pre ++ (k, v) :: post) k' = dict_get (pre ++ post) k'.
Proof.
  intros Hne. induction pre as [| [k0 v0] pre IH]; cbn.
  - apply String.eqb_neq in Hne. rewrite Hne. reflexivity.
  - rewrite IH. reflexivity.
Qed.

Lemma dict_get_here (pre post : list (string * pyval)) (k : string)
    (v : pyval) :
  dict_get (pre ++ (k, v) :: post) k =
    match dict_get pre k with
    | Some v0 => Some v0
    | None => Some v
    end.
Proof.
  induction pre as [| [k0 v0] pre IH]; cbn.
  - rewrite String.eqb_refl. reflexivity.
  - destruct (String.eqb k0 k); [reflexivity | exact IH].
Qed.

Lemma getitem_first (first : pyval) (rest : list pyval) :
  getitem (PList (first :: rest)) (IInt 0) = inr first.
Proof. reflexivity. Qed.

(** X8: the handler reads five top-level fields of the body; a field
    under any other key changes nothing of what it returns or raises. *)
Theorem weather_data_of_ignores_other_fields
    (pre post : list (string * pyval)) (k : string) (v : pyval) :
  ~ In k read_keys ->
  build (PDict (pre ++ (k, v) :: post)) = build (PDict (pre ++ post)).
Proof.
  intros Hk.
  assert (forall k', In k' read_keys ->
            getitem (PDict (pre ++ (k, v) :: post)) (IKey k') =
            getitem (PDict (pre ++ post)) (IKey k')) as Hget.
  { intros k' Hin. cbn [getitem].
    rewrite dict_get_other; [reflexivity |].
    intros ->. contradiction. }
  unfold weather_data_of.
  rewrite (Hget "name"), (Hget "main"), (Hget "weather"), (Hget "wind"),
    (Hget "sys") by (cbn; tauto).
  reflexivity.
Qed.

(** X9: of the list under [weather] only the first element is read; the
    elements after it change nothing. *)
Theorem weather_data_of_reads_first_weather
    (pre post : list (string * pyval)) (first : pyval)
    (rest rest' : list pyval) :
  build (PDict (pre ++ ("weather", PList (first :: rest)) :: post)) =
  build (PDict (pre ++ ("weather", PList (first :: rest')) :: post)).
Proof.
  set (d := PDict (pre ++ ("weather", PList (first :: rest)) :: post)).
  set (d' := PDict (pre ++ ("weather", PList (first :: rest')) :: post)).
  assert (forall k', k' <> "weather" ->
            getitem d (IKey k') = getitem d' (IKey k')) as Hget.
  { intros k' Hne. unfold d, d'. cbn [getitem].
    rewrite !dict_get_other by congruence. reflexivity. }
  assert (getitem d (IKey "weather") = getitem d' (IKey "weather") \/
          (getitem d (IKey "weather") = inr (PList (first :: rest)) /\
           getitem d' (IKey "weather") = inr (PList (first :: rest'))))
    as Hweather.
  { unfold d, d'. cbn [getitem]. rewrite !dict_get_here.
    destruct (dict_get pre "weather"); [left | right; split]; reflexivity. }
  unfold weather_data_of.
  rewrite (Hget "name"), (Hget "main"), (Hget "wind"), (Hget "sys")
    by discriminate.
  destruct Hweather as [-> | [-> ->]]; [reflexivity |].
  cbn [rbind]. rewrite !getitem_first. reflexivity.
Qed.

(** ** Bodies the handler cannot read *)

Lemma get_weather_on_200 (city : string) (w : world) (key : string)
    (resp : response) :
  truthy (environ w API_KEY) = Some key ->
  upstream city key w = inr resp ->
  status_code resp = 200%Z ->
  fst (handler city w) =
    match process resp with
    | inl e => inl (HTTPException 500 (str e))
    | inr wd => inr wd
    end.
Proof.
  intros Hkey Hup Hstatus. rewrite (with_key _ _ _ Hkey). cbv zeta.
  rewrite Hup, Hstatus. cbn [Z.eqb Pos.eqb].
  destruct (process resp) as [e | wd] eqn:Hp; [| reflexivity].
  cbn [fst].
  rewrite (reraised_other str e
             (processed_raises validate_str validate_float validate_int title
                               resp e Hp)).
  reflexivity.
Qed.

(** X10: a 200 answer whose body is not JSON, or is JSON but not an
    object, ends with status 500; the detail is the text of the
    [JSONDecodeError], or of the [TypeError] of the first subscript,
    [data["name"]]. *)
Theorem unreadable_body_is_500
    (city : string) (w : world) (key : string) (resp : response) :
  truthy (environ w API_KEY) = Some key ->
  upstream city key w = inr resp ->
  status_code resp = 200%Z ->
  (json resp = None ->
   fst (handler city w) = inl (HTTPException 500 (str JSONDecodeError))) /\
  (forall data,
     json resp = Some data ->
     (forall items, data <> PDict items) ->
     fst (handler city w) =
       inl (HTTPException 500 (str (TypeError data (IKey "name"))))).
Proof.
  intros Hkey Hup Hstatus.
  rewrite (get_weather_on_200 city w key resp Hkey Hup Hstatus).
  unfold processed, response_json. split.
  - intros ->. reflexivity.
  - intros data -> Hnot.
    destruct data; try reflexivity.
    exfalso. apply (Hnot items). reflexivity.
Qed.

(** X11: a 200 answer whose body has [name] and [main.temp] but an empty
    list under [weather] ends with status 500 and the text of the
    [IndexError] of [data["weather"][0]]. *)
Theorem empty_weather_list_is_500
    (city : string) (w : world) (key : string) (resp : response)
    (data name main temp : pyval) :
  truthy (environ w API_KEY) = Some key ->
  upstream city key w = inr resp ->
  status_code resp = 200%Z ->
  json resp = Some data ->
  getitem data (IKey "name") = inr name ->
  getitem data (IKey "main") = inr main ->
  getitem main (IKey "temp") = inr temp ->
  getitem data (IKey "weather") = inr (PList []) ->
  fst (handler city w) =
    inl (HTTPException 500 (str (IndexError (PList [])))).
Proof.
  intros Hkey Hup Hstatus Hjson Hname Hmain Htemp Hweather.
  rewrite (get_weather_on_200 city w key resp Hkey Hup Hstatus).
  unfold processed, response_json. rewrite Hjson. cbn [rbind].
  unfold weather_data_of.
  rewrite Hname, Hmain. cbn [rbind]. rewrite Htemp, Hweather. reflexivity.
Qed.

(** X12: [.title()] is called on the description before the model sees any
    field: a description that is not a string ends the request with
    status 500 and the text of an [AttributeError], whatever the
    validators accept. *)
Theorem non_string_description_is_500
    (city : string) (w : world) (key : string) (resp : response)
    (data name main temp weather weather0 descr : pyval) :
  truthy (environ w API_KEY) = Some key ->
  upstream city key w = inr resp ->
  status_code resp = 200%Z ->
  json resp = Some data ->
  getitem data (IKey "name") = inr name ->
  getitem data (IKey "main") = inr main ->
  getitem main (IKey "temp") = inr temp ->
  getitem data (IKey "weather") = inr weather ->
  getitem weather (IInt 0) = inr weather0 ->
  getitem weather0 (IKey "description") = inr descr ->
  (forall s, descr <> PStr s) ->
  fst (handler city w) =
    inl (HTTPException 500 (str (AttributeError descr "title"))).
Proof.
  intros Hkey Hup Hstatus Hjson Hname Hmain Htemp Hweather Hw0 Hdescr Hnot.
  rewrite (get_weather_on_200 city w key resp Hkey Hup Hstatus).
  unfold processed, response_json. rewrite Hjson. cbn [rbind].
  unfold weather_data_of.
  rewrite Hname, Hmain. cbn [rbind]. rewrite Htemp, Hweather. cbn [rbind].
  rewrite Hw0. cbn [rbind]. rewrite Hdescr. cbn [rbind].
  destruct descr; try reflexivity.
  exfalso. apply (Hnot s). reflexivity.
Qed.

(** ** Title case *)

Lemma weather_data_of_description
    (data weather weather0 : pyval) (descr : string) (wd : WeatherResponse) :
  typed ->
  getitem data (IKey "weather") = inr weather ->
  getitem weather (IInt 0) = inr weather0 ->
  getitem weather0 (IKey "description") = inr (PStr descr) ->
  build data = inr wd ->
  description wd = title descr.
Proof.
  intros (Hs & _ & _) Hw Hw0 Hdescr Hbuild. unfold weather_data_of in Hbuild.
  repeat (rewrite ?Hw, ?Hw0, ?Hdescr in Hbuild;
          cbn [rbind call_title] in Hbuild;
          match type of Hbuild with
          | rbind ?r _ = inr _ =>
              let H := fresh "Hstep" in
              destruct r eqn:H; cbn [rbind] in Hbuild;
              [discriminate Hbuild |]
          end).
  unfold WeatherResponse_init in Hbuild. rewrite (Hs (title descr)) in Hbuild.
  repeat match type of Hbuild with
         | context [match ?x with _ => _ end] =>
             destruct x; try discriminate Hbuild
         end.
  injection Hbuild as <-. reflexivity.
Qed.

(** X13: when the provider's description is an ASCII text, the description
    of the response is that text in title case: no upper-case letter
    follows a letter, no lower-case letter starts a word, and up to the
    case of the letters it is the provider's text. *)
Theorem description_is_title_cased
    (city : string) (w : world) (key : string) (resp : response)
    (data weather weather0 : pyval) (descr : string) (wd : WeatherResponse) :
  typed ->
  title_on_ascii title ->
  truthy (environ w API_KEY) = Some key ->
  upstream city key w = inr resp ->
  json resp = Some data ->
  getitem data (IKey "weather") = inr weather ->
  getitem weather (IInt 0) = inr weather0 ->
  getitem weather0 (IKey "description") = inr (PStr descr) ->
  Str.is_ascii descr = true ->
  fst (handler city w) = inr wd ->
  Str.in_title_case (description wd) = true /\
  Str.lower (description wd) = Str.lower descr.
Proof.
  intros Htyped Htitle Hkey Hup Hjson Hw Hw0 Hdescr Hascii Hrun.
  rewrite (with_key _ _ _ Hkey) in Hrun. cbv zeta in Hrun.
  rewrite Hup in Hrun.
  destruct (status_code resp =? 200)%Z; [| discriminate Hrun].
  destruct (process resp) as [e | wd'] eqn:Hp; [discriminate Hrun |].
  cbn [fst] in Hrun. injection Hrun as ->.
  unfold processed, response_json in Hp. rewrite Hjson in Hp.
  cbn [rbind] in Hp.
  rewrite (weather_data_of_description data weather weather0 descr wd
             Htyped Hw Hw0 Hdescr Hp), (Htitle descr Hascii).
  split.
  - apply title_from_in_title_case.
  - apply title_from_same_letters.
Qed.

(** ** Outbound calls of requests in flight *)

Local Abbreviation turn :=
  (step str validate_str validate_float validate_int title).
Local Abbreviation turns :=
  (steps str validate_str validate_float validate_int title).

Lemma start_world (city : string) (w w' : world) (t : task) :
  start str city w = (t, w') ->
  environ w' = environ w /\
  provider w' = provider w /\
  has_started t = true /\
  match truthy (environ w API_KEY) with
  | Some key =>
      match exchanged city key w with
      | NoClient _ => outbound w' = outbound w
      | Called _ => outbound w' = outbound w ++ [request_for city key w]
      end
  | None => outbound w' = outbound w
  end.
Proof.
  unfold start, before_await, bind, try_except, os_getenv, on_exception,
    raise, ret, AsyncClient, API_KEY, exchanged, request_for, BASE_URL.
  cbn.
  destruct (truthy (environ w "OPENWEATHER_API_KEY")) as [key |]; cbn;
    [destruct (provider w (List.length (outbound w)) _); cbn |];
    intros Heq; injection Heq as <- <-; repeat split.
Qed.

Lemma finish_world (start_time : float) (answer : result response)
    (w w' : world) (t : task) :
  finish str validate_str validate_float validate_int title start_time answer w
    = (t, w') ->
  environ w' = environ w /\ provider w' = provider w /\
  outbound w' = outbound w /\ has_started t = true.
Proof.
  unfold finish, after_await, bind, try_except, on_exception, raise, ret, lift.
  destruct answer as [e | resp]; cbn.
  - intros Heq; injection Heq as <- <-. repeat split.
  - destruct (status_code resp =? 200)%Z; cbn.
    + destruct (response_json resp) as [e | data]; cbn.
      * intros Heq; injection Heq as <- <-. repeat split.
      * destruct (weather_data_of _ _ _ _ data) as [e | wd]; cbn;
          intros Heq; injection Heq as <- <-; repeat split.
    + intros Heq; injection Heq as <- <-. repeat split.
Qed.

Lemma step_calls (c c' : config) : turn c c' -> calls_balance c c'.
Proof.
  intros Hstep. unfold calls_balance.
  inversion Hstep
    as [w w' pre post city t Hrun | w w' pre post st req answer t Hrun];
    subst; cbn [fst snd]; rewrite !count_middle.
  - destruct (start_world _ _ _ _ Hrun) as (He & Hp & Hs & Hcall).
    rewrite Hs. cbn [has_started].
    split; [exact He |]. split; [exact Hp |].
    destruct (truthy (environ w API_KEY)) as [key |].
    + destruct (exchanged city key w) as [e | x] eqn:Hx; rewrite Hcall.
      * repeat split; try lia; try discriminate.
        intros _ Hclient. destruct (Hclient _ _ _ Hx).
      * rewrite length_app. cbn [List.length].
        repeat split; try lia; discriminate.
    + rewrite Hcall. repeat split; try lia. intros Hne. contradiction.
  - destruct (finish_world _ _ _ _ _ Hrun) as (He & Hp & Ho & Hs).
    rewrite Ho, Hs. cbn [has_started]. repeat split; try assumption; lia.
Qed.

Lemma steps_calls (c c' : config) : turns c c' -> calls_balance c c'.
Proof.
  induction 1 as [c | c1 c2 c3 Hstep _ IH].
  - unfold calls_balance. repeat split; lia.
  - apply step_calls in Hstep.
    destruct Hstep as (He & Hp & Hle & Hnone & Hsome).
    destruct IH as (He' & Hp' & Hle' & Hnone' & Hsome').
    unfold calls_balance. rewrite He in Hnone', Hsome'.
    assert (client_available (fst c1) -> client_available (fst c2)) as Hcl
      by (unfold client_available; rewrite Hp; trivial).
    split; [congruence |]. split; [congruence |]. split; [lia |]. split.
    + intros Hk. rewrite (Hnone' Hk). exact (Hnone Hk).
    + intros Hk Hclient.
      pose proof (Hsome Hk Hclient). pose proof (Hsome' Hk (Hcl Hclient)). lia.
Qed.

(** X14: however the segments of requests in flight interleave, the
    environment stays as it was and [client.get] has been called at most
    once for each request whose handler has started: never with no key
    configured, and exactly once for each with a key and a client that can
    be constructed. *)
Theorem in_flight_calls_match_started
    (cities : list string) (w0 w : world) (pool : list task) :
  turns (w0, map Accepted cities) (w, pool) ->
  environ w = environ w0 /\
  (List.length (outbound w)
   <= List.length (outbound w0) + count has_started pool)%nat /\
  (truthy (environ w0 API_KEY) = None -> outbound w = outbound w0) /\
  (truthy (environ w0 API_KEY) <> None -> client_available w0 ->
   List.length (outbound w) =
     (List.length (outbound w0) + count has_started pool)%nat).
Proof.
  intros Hrun. apply steps_calls in Hrun.
  destruct Hrun as (He & _ & Hle & Hnone & Hsome). cbn [fst snd] in *.
  rewrite count_accepted in Hle, Hsome by reflexivity.
  split; [exact He |]. split; [lia |]. split; [exact Hnone |].
  intros Hk Hclient. specialize (Hsome Hk Hclient). lia.
Qed.

End Further.

(** * The further properties at concrete requests *)

Lemma get_weather_succeeds_iff_witness :
  fst (Lib.get_weather "London"
         (Lib.configured (inr (mkResponse 200 (Some Lib.london))))) =
    inr (mkWeatherResponse "London" 11.5%float "Light Rain" 81 4.25%float
                           "10d" "GB").
Proof.
  apply (proj2 (get_weather_succeeds_iff
                  Lib.str Lib.validate_str Lib.validate_float Lib.validate_int
                  Lib.title
                  "London"
                  (Lib.configured (inr (mkResponse 200 (Some Lib.london))))
                  _)).
  exists "k3y", (mkResponse 200 (Some Lib.london)).
  repeat split.
Defined.

Lemma get_weather_observes_elapsed_witness :
  request_duration
    (snd (Lib.get_weather "London"
            (Lib.configured (inr (mkResponse 200 (Some Lib.london)))))) =
    [0.5%float] /\
  ticks
    (snd (Lib.get_weather "London"
            (Lib.configured (inr (mkResponse 200 (Some Lib.london)))))) =
    2%nat.
Proof.
  apply (proj1 (get_weather_observes_elapsed
                  Lib.str Lib.validate_str Lib.validate_float Lib.validate_int
                  Lib.title
                  "London"
                  (Lib.configured (inr (mkResponse 200 (Some Lib.london)))))).
  reflexivity.
Defined.

Lemma response_independent_of_metrics_witness :
  fst (Lib.get_weather "London"
         (snd (Lib.get_weather "Paris"
                 (Lib.configured (inr (mkResponse 200 (Some Lib.london))))))) =
  fst (Lib.get_weather "London"
         (Lib.configured (inr (mkResponse 200 (Some Lib.london))))).
Proof.
  apply (response_independent_of_metrics
           Lib.str Lib.validate_str Lib.validate_float Lib.validate_int
           Lib.title
           "London"
           (Lib.configured (inr (mkResponse 200 (Some Lib.london))))
           (snd (Lib.get_weather "Paris"
                   (Lib.configured (inr (mkResponse 200 (Some Lib.london))))))).
  - reflexivity.
  - reflexivity.
  - intros req. reflexivity.
Defined.

Lemma serve_without_key_witness :
  fst (serve Lib.str Lib.validate_str Lib.validate_float Lib.validate_int
             Lib.title
         ["London"; "Paris"]
         (Lib.world_of None (Some "https://example.org")
                       (inr (mkResponse 200 (Some Lib.london))))) =
    [inl (HTTPException 500 "500: API key not configured");
     inl (HTTPException 500 "500: API key not configured")] /\
  outbound
    (snd (serve Lib.str Lib.validate_str Lib.validate_float Lib.validate_int
                Lib.title
            ["London"; "Paris"]
            (Lib.world_of None (Some "https://example.org")
                          (inr (mkResponse 200 (Some Lib.london)))))) = [].
Proof.
  apply (serve_without_key
           Lib.str Lib.validate_str Lib.validate_float Lib.validate_int
           Lib.title
           ["London"; "Paris"]
           (Lib.world_of None (Some "https://example.org")
                         (inr (mkResponse 200 (Some Lib.london))))).
  reflexivity.
Defined.

Lemma serve_calls_in_order_witness :
  outbound
    (snd (serve Lib.str Lib.validate_str Lib.validate_float Lib.validate_int
                Lib.title
            ["London"; "Atlantis"]
            (Lib.configured (inr (mkResponse 404 None))))) =
    [] ++
    [mkRequest "GET" "https://api.openweathermap.org/data/2.5/weather"
               [("q", "London"); ("appid", "k3y"); ("units", "metric")];
     mkRequest "GET" "https://api.openweathermap.org/data/2.5/weather"
               [("q", "Atlantis"); ("appid", "k3y"); ("units", "metric")]].
Proof.
  apply (serve_calls_in_order
           Lib.str Lib.validate_str Lib.validate_float Lib.validate_int
           Lib.title ["London"; "Atlantis"]
           (Lib.configured (inr (mkResponse 404 None))) "k3y").
  - reflexivity.
  - intros n req e. discriminate.
Defined.

Lemma weather_data_of_ignores_other_fields_witness :
  weather_data_of Lib.validate_str Lib.validate_float Lib.validate_int Lib.title
    (PDict ([("name", PStr "London")]
            ++ ("coord", PDict [("lon", PFloat (-0.125)%float)])
            :: [("main", PDict [("temp", PFloat 11.5%float);
                                ("humidity", PInt 81)])])) =
  weather_data_of Lib.validate_str Lib.validate_float Lib.validate_int Lib.title
    (PDict ([("name", PStr "London")]
            ++ [("main", PDict [("temp", PFloat 11.5%float);
                                ("humidity", PInt 81)])])).
Proof.
  apply (weather_data_of_ignores_other_fields
           Lib.validate_str Lib.validate_float Lib.validate_int Lib.title).
  cbn. intros [H | [H | [H | [H | [H | []]]]]]; discriminate H.
Defined.

Lemma unreadable_body_is_500_witness :
  fst (Lib.get_weather "London"
         (Lib.configured (inr (mkResponse 200 (Some (PList [])))))) =
    inl (HTTPException 500
           "list indices must be integers or slices, not str").
Proof.
  apply (proj2 (unreadable_body_is_500
                  Lib.str Lib.validate_str Lib.validate_float Lib.validate_int
                  Lib.title
                  "London"
                  (Lib.configured (inr (mkResponse 200 (Some (PList [])))))
                  "k3y" (mkResponse 200 (Some (PList [])))
                  eq_refl eq_refl eq_refl)
               (PList []) eq_refl).
  intros items. discriminate.
Defined.

Lemma empty_weather_list_is_500_witness :
  fst (Lib.get_weather "London"
         (Lib.configured
            (inr (mkResponse 200
                    (Some (PDict [("name", PStr "London");
                                  ("main", PDict [("temp", PFloat 11.5%float)]);
                                  ("weather", PList [])])))))) =
    inl (HTTPException 500 "list index out of range").
Proof.
  apply (empty_weather_list_is_500
           Lib.str Lib.validate_str Lib.validate_float Lib.validate_int
           Lib.title
           "London" _ "k3y"
           (mkResponse 200
              (Some (PDict [("name", PStr "London");
                            ("main", PDict [("temp", PFloat 11.5%float)]);
                            ("weather", PList [])])))
           (PDict [("name", PStr "London");
                   ("main", PDict [("temp", PFloat 11.5%float)]);
                   ("weather", PList [])])
           (PStr "London") (PDict [("temp", PFloat 11.5%float)])
           (PFloat 11.5%float));
    reflexivity.
Defined.

Lemma non_string_description_is_500_witness :
  fst (Lib.get_weather "London"
         (Lib.configured
            (inr (mkResponse 200
                    (Some (PDict [("name", PStr "London");
                                  ("main", PDict [("temp", PFloat 11.5%float)]);
                                  ("weather",
                                   PList [PDict [("description", PNone)]])])))))) =
    inl (HTTPException 500 "'NoneType' object has no attribute 'title'").
Proof.
  apply (non_string_description_is_500
           Lib.str Lib.validate_str Lib.validate_float Lib.validate_int
           Lib.title
           "London" _ "k3y"
           (mkResponse 200
              (Some (PDict [("name", PStr "London");
                            ("main", PDict [("temp", PFloat 11.5%float)]);
                            ("weather",
                             PList [PDict [("description", PNone)]])])))
           (PDict [("name", PStr "London");
                   ("main", PDict [("temp", PFloat 11.5%float)]);
                   ("weather", PList [PDict [("description", PNone)]])])
           (PStr "London") (PDict [("temp", PFloat 11.5%float)])
           (PFloat 11.5%float)
           (PList [PDict [("description", PNone)]])
           (PDict [("description", PNone)]) PNone);
    try reflexivity.
  intros s. discriminate.
Defined.

Lemma description_is_title_cased_witness :
  Str.in_title_case "Light Snow" = true /\
  Str.lower "Light Snow" = Str.lower "LIGHT snow".
Proof.
  apply (description_is_title_cased
           Lib.str Lib.validate_str Lib.validate_float Lib.validate_int
           Lib.title "oslo"
           (Lib.configured (inr (mkResponse 200 (Some Lib.oslo))))
           "k3y" (mkResponse 200 (Some Lib.oslo)) Lib.oslo
           (PList [PDict [("description", PStr "LIGHT snow");
                          ("icon", PStr "13d")]])
           (PDict [("description", PStr "LIGHT snow"); ("icon", PStr "13d")])
           "LIGHT snow"
           (mkWeatherResponse "Oslo" (-3)%float "Light Snow" 81 7%float
                              "13d" "NO")
           Lib_validators_keep_values (fun s _ => eq_refl));
    reflexivity.
Defined.

(** The run of [Lib]: London starts, Paris starts, Paris finishes, London
    finishes. *)
Lemma two_requests_in_flight :
  steps Lib.str Lib.validate_str Lib.validate_float Lib.validate_int Lib.title
    (Lib.w0, map Accepted ["London"; "Paris"])
    (Lib.w4, [Finished (inl (HTTPException 500 "404: City not found"));
              Finished (inr Lib.paris_weather)]).
Proof.
  apply (steps_step _ _ _ _ _ _
           (Lib.w1, [Awaiting 100%float Lib.london_request;
                     Accepted "Paris"])).
  { apply (step_start _ _ _ _ _ Lib.w0 Lib.w1 [] [Accepted "Paris"] "London").
    reflexivity. }
  apply (steps_step _ _ _ _ _ _
           (Lib.w2, [Awaiting 100%float Lib.london_request;
                     Awaiting 100.5%float Lib.paris_request])).
  { apply (step_start _ _ _ _ _ Lib.w1 Lib.w2
             [Awaiting 100%float Lib.london_request] [] "Paris").
    reflexivity. }
  apply (steps_step _ _ _ _ _ _
           (Lib.w3, [Awaiting 100%float Lib.london_request;
                     Finished (inr Lib.paris_weather)])).
  { apply (step_finish _ _ _ _ _ Lib.w2 Lib.w3
             [Awaiting 100%float Lib.london_request] []
             100.5%float Lib.paris_request
             (inr (mkResponse 200 (Some Lib.paris)))).
    reflexivity. }
  apply (steps_step _ _ _ _ _ _
           (Lib.w4, [Finished (inl (HTTPException 500 "404: City not found"));
                     Finished (inr Lib.paris_weather)])).
  { apply (step_finish _ _ _ _ _ Lib.w3 Lib.w4
             [] [Finished (inr Lib.paris_weather)]
             100%float Lib.london_request
             (inr (mkResponse 404 None))).
    reflexivity. }
  apply steps_refl.
Defined.

Lemma in_flight_calls_match_started_witness :
  List.length (outbound Lib.w4) = 2%nat.
Proof.
  refine (proj2 (proj2 (proj2 (in_flight_calls_match_started
            Lib.str Lib.validate_str Lib.validate_float Lib.validate_int
            Lib.title ["London"; "Paris"] Lib.w0 Lib.w4 _
            two_requests_in_flight))) _ _).
  - discriminate.
  - intros n req e. discriminate.
Defined.
